(** * kattis-util: the request cache, the URL resolver, the session facade
    and the entity model of [kattis.py], and the cache of
    [response_cache.py], embedded as Rocq functions.

    Python values are modelled as follows.
    - [str] is [string]; an [int] status code is [Z]; a [dict] with string
      keys is a [gmap string _].
    - A raised exception is a value [exn] (class and constructor
      arguments); a computation that may raise returns a [result].
    - Objects that are compared or hashed by identity carry the identity of
      the object ([obj_id]) next to their fields.
    - Code that mutates the session, allocates objects or talks to the
      network runs in the state-and-exception monad [M]. *)

From Stdlib Require Import ZArith Ascii String DecimalString.
From Stdlib Require OrderedTypeEx.
From stdpp Require Import base option gmap strings list.

Open Scope string_scope.

(** ** Exceptions and results *)

(** The exception classes the code raises or lets through.
    [ConfigError] is [kattis_cli.submit.ConfigError], a direct subclass of
    [Exception] declared outside this repository.  [NoSectionError],
    [NoOptionError], the three interpolation errors and the four parsing
    errors are [configparser]'s; [KeyError] is what a failed [dict]
    subscript raises, [ValueError] what [set] raises for a value it cannot
    take, and [RequestException] stands for whatever the HTTP library
    raises. *)
Inductive exn_class :=
| Exception
| TypeError
| ConfigError
| NoSectionError
| NoOptionError
| KeyError
| ValueError
| InterpolationSyntaxError
| InterpolationMissingOptionError
| InterpolationDepthError
| MissingSectionHeaderError
| ParsingError
| DuplicateSectionError
| DuplicateOptionError
| RequestException.

Record exn := mk_exn { exn_type : exn_class; exn_args : list string }.

Inductive result (A : Type) :=
| Ok (a : A)
| Raise (e : exn).
Arguments Ok {A} a.
Arguments Raise {A} e.

#[global] Instance result_ret : MRet result := @Ok.
#[global] Instance result_bind : MBind result := fun A B f r =>
  match r with
  | Ok a => f a
  | Raise e => Raise e
  end.
#[global] Instance result_fmap : FMap result := fun A B f r =>
  match r with
  | Ok a => Ok (f a)
  | Raise e => Raise e
  end.

(** [str(n)] for an [int]. *)
Definition str_int (n : Z) : string := NilZero.string_of_int (Z.to_int n).

(** ** Entity model *)

(** Identity of a Python object. *)
Definition obj_id := nat.

Module ContestData.
Record t := mk { kattis : obj_id; id : string }.
End ContestData.

Module SubmissionData.
Record t := mk { kattis : obj_id; id : string }.
End SubmissionData.

Module ProblemData.
Record t := mk { kattis : obj_id; name : string }.
End ProblemData.

Module UserData.
Record t := mk { kattis : obj_id; name : string }.
End UserData.

(** The objects an entity can be compared with: the four entity classes
    and anything else. *)
Inductive object :=
| OContest (c : ContestData.t)
| OSubmission (s : SubmissionData.t)
| OProblem (p : ProblemData.t)
| OUser (u : UserData.t)
| OStr (s : string)
| ONone.

(** [str(o)] for the objects that are formatted into URLs. *)
Definition str (o : object) : string :=
  match o with
  | OContest c => ContestData.id c
  | OSubmission s => SubmissionData.id s
  | OProblem p => ProblemData.name p
  | OUser u => UserData.name u
  | OStr s => s
  | ONone => "None"
  end.

Module Contest.
Export ContestData.
Abbreviation t := ContestData.t (only parsing).

Definition __init__ (kattis : obj_id) (id : string) : t := mk kattis id.

Definition isinstance (other : object) : bool :=
  match other with OContest _ => true | _ => false end.

Definition __str__ (self : t) : string := id self.

Definition __hash__ (hash : string -> Z) (self : t) : Z :=
  hash (__str__ self).

Definition __eq__ (self : t) (other : object) : bool :=
  isinstance other && String.eqb (__str__ self) (str other).

Definition __lt__ (self : t) (other : object) : result bool :=
  if negb (isinstance other) then Raise (mk_exn TypeError [])
  else Ok (String.ltb (__str__ self) (str other)).

(** The three methods [functools.total_ordering] derives from [__lt__]
    and [__eq__]. *)
Definition __le__ (self : t) (other : object) : result bool :=
  op_result ← __lt__ self other; Ok (op_result || __eq__ self other).

Definition __gt__ (self : t) (other : object) : result bool :=
  op_result ← __lt__ self other;
  Ok (negb op_result && negb (__eq__ self other)).

Definition __ge__ (self : t) (other : object) : result bool :=
  op_result ← __lt__ self other; Ok (negb op_result).
End Contest.

Module Submission.
Export SubmissionData.
Abbreviation t := SubmissionData.t (only parsing).

Definition __init__ (kattis : obj_id) (id : string) : t := mk kattis id.

Definition isinstance (other : object) : bool :=
  match other with OSubmission _ => true | _ => false end.

Definition __str__ (self : t) : string := id self.

Definition __hash__ (hash : string -> Z) (self : t) : Z :=
  hash (__str__ self).

Definition __eq__ (self : t) (other : object) : bool :=
  isinstance other && String.eqb (__str__ self) (str other).

Definition __lt__ (self : t) (other : object) : result bool :=
  if negb (isinstance other) then Raise (mk_exn TypeError [])
  else Ok (String.ltb (__str__ self) (str other)).

Definition __le__ (self : t) (other : object) : result bool :=
  op_result ← __lt__ self other; Ok (op_result || __eq__ self other).

Definition __gt__ (self : t) (other : object) : result bool :=
  op_result ← __lt__ self other;
  Ok (negb op_result && negb (__eq__ self other)).

Definition __ge__ (self : t) (other : object) : result bool :=
  op_result ← __lt__ self other; Ok (negb op_result).
End Submission.

Module Problem.
Export ProblemData.
Abbreviation t := ProblemData.t (only parsing).

Definition __init__ (kattis : obj_id) (name : string) : t := mk kattis name.

Definition isinstance (other : object) : bool :=
  match other with OProblem _ => true | _ => false end.

Definition __str__ (self : t) : string := name self.

Definition __hash__ (hash : string -> Z) (self : t) : Z :=
  hash (__str__ self).

Definition __eq__ (self : t) (other : object) : bool :=
  isinstance other && String.eqb (__str__ self) (str other).

Definition __lt__ (self : t) (other : object) : result bool :=
  if negb (isinstance other) then Raise (mk_exn TypeError [])
  else Ok (String.ltb (__str__ self) (str other)).

Definition __le__ (self : t) (other : object) : result bool :=
  op_result ← __lt__ self other; Ok (op_result || __eq__ self other).

Definition __gt__ (self : t) (other : object) : result bool :=
  op_result ← __lt__ self other;
  Ok (negb op_result && negb (__eq__ self other)).

Definition __ge__ (self : t) (other : object) : result bool :=
  op_result ← __lt__ self other; Ok (negb op_result).
End Problem.

Module User.
Export UserData.
Abbreviation t := UserData.t (only parsing).

Definition __init__ (kattis : obj_id) (name : string) : t := mk kattis name.

Definition isinstance (other : object) : bool :=
  match other with OUser _ => true | _ => false end.

Definition __str__ (self : t) : string := name self.

Definition __hash__ (hash : string -> Z) (self : t) : Z :=
  hash (__str__ self).

Definition __eq__ (self : t) (other : object) : bool :=
  isinstance other && String.eqb (__str__ self) (str other).

Definition __lt__ (self : t) (other : object) : result bool :=
  if negb (isinstance other) then Raise (mk_exn TypeError [])
  else Ok (String.ltb (__str__ self) (str other)).

Definition __le__ (self : t) (other : object) : result bool :=
  op_result ← __lt__ self other; Ok (op_result || __eq__ self other).

Definition __gt__ (self : t) (other : object) : result bool :=
  op_result ← __lt__ self other;
  Ok (negb op_result && negb (__eq__ self other)).

Definition __ge__ (self : t) (other : object) : result bool :=
  op_result ← __lt__ self other; Ok (negb op_result).
End User.

(** The entities as one type, with the comparison operators dispatched on
    the class of the left operand.  None of the [__eq__] and [__lt__]
    methods returns [NotImplemented], so the reflected method of the right
    operand is never tried. *)
Inductive entity :=
| EContest (c : Contest.t)
| ESubmission (s : Submission.t)
| EProblem (p : Problem.t)
| EUser (u : User.t).

Definition to_object (e : entity) : object :=
  match e with
  | EContest c => OContest c
  | ESubmission s => OSubmission s
  | EProblem p => OProblem p
  | EUser u => OUser u
  end.

Inductive kind := KContest | KSubmission | KProblem | KUser.

Definition kind_of (e : entity) : kind :=
  match e with
  | EContest _ => KContest
  | ESubmission _ => KSubmission
  | EProblem _ => KProblem
  | EUser _ => KUser
  end.

Definition identifier (e : entity) : string := str (to_object e).

Definition py_hash (hash : string -> Z) (e : entity) : Z :=
  match e with
  | EContest c => Contest.__hash__ hash c
  | ESubmission s => Submission.__hash__ hash s
  | EProblem p => Problem.__hash__ hash p
  | EUser u => User.__hash__ hash u
  end.

Definition py_eq (a : entity) (b : object) : bool :=
  match a with
  | EContest c => Contest.__eq__ c b
  | ESubmission s => Submission.__eq__ s b
  | EProblem p => Problem.__eq__ p b
  | EUser u => User.__eq__ u b
  end.

Definition py_lt (a : entity) (b : object) : result bool :=
  match a with
  | EContest c => Contest.__lt__ c b
  | ESubmission s => Submission.__lt__ s b
  | EProblem p => Problem.__lt__ p b
  | EUser u => User.__lt__ u b
  end.

Definition py_le (a : entity) (b : object) : result bool :=
  match a with
  | EContest c => Contest.__le__ c b
  | ESubmission s => Submission.__le__ s b
  | EProblem p => Problem.__le__ p b
  | EUser u => User.__le__ u b
  end.

Definition py_gt (a : entity) (b : object) : result bool :=
  match a with
  | EContest c => Contest.__gt__ c b
  | ESubmission s => Submission.__gt__ s b
  | EProblem p => Problem.__gt__ p b
  | EUser u => User.__gt__ u b
  end.

Definition py_ge (a : entity) (b : object) : result bool :=
  match a with
  | EContest c => Contest.__ge__ c b
  | ESubmission s => Submission.__ge__ s b
  | EProblem p => Problem.__ge__ p b
  | EUser u => User.__ge__ u b
  end.


(** ** The [requests] library, as the code uses it *)

(** A [requests.Request] object.  The class defines neither [__eq__] nor
    [__hash__], so a [dict] keyed by requests compares keys with
    [object.__eq__] and [object.__hash__]: by the identity of the object,
    whatever its fields hold. *)
Record Request := mk_Request {
  req_id : obj_id;
  req_method : string;
  req_url : string;
  req_headers : gmap string string;
  req_data : gmap string string;
  req_params : gmap string string;
  req_cookies : option (gmap string string)
}.

(** A [requests.Response] object: its identity, and the two attributes the
    code reads. *)
Record Response := mk_Response {
  resp_id : obj_id;
  status_code : Z;
  cookies_of : gmap string string
}.

(** The key under which a [dict] files a request. *)
Definition dict_key (req : Request) : obj_id := req_id req.

(** The six fields the specification calls the identity of a request. *)
Definition same_fields (r1 r2 : Request) : Prop :=
  req_method r1 = req_method r2 /\ req_url r1 = req_url r2 /\
  req_headers r1 = req_headers r2 /\ req_data r1 = req_data r2 /\
  req_params r1 = req_params r2 /\ req_cookies r1 = req_cookies r2.

(** The network layer, as [Session().send(req.prepare())] uses it.
    [req.prepare()] is evaluated first; it looks at the request alone and
    may raise (a URL without a scheme, say), in which case nothing is sent:
    [prepare_error] gives the exception, if any.  The call proper, [answer],
    is what the transport does with a prepared request, given the requests
    that went through it before: it returns a response or raises.  A
    transport applied to a log and a request, [net sent req], is that
    answer. *)
Record transport := mk_transport {
  prepare_error : Request -> option exn;
  answer :> list Request -> Request -> result Response
}.

(** [requests.sessions.Session().send(req.prepare())]: the request is
    prepared, then sent; a network call is recorded in the log [sent]. *)
Definition Session_send (net : transport) (sent : list Request)
    (req : Request) : result Response * list Request :=
  match prepare_error net req with
  | Some e => (Raise e, sent)
  | None => (net sent req, (sent ++ [req])%list)
  end.

(** [requests.session()] returns [Session()]. *)
Definition requests_session_send := Session_send.

(** ** [RequestCache] (kattis.py) *)

Module RequestCache.
Record t := mk { cache : gmap obj_id Response }.

Definition __init__ : t := mk ∅.

Definition __contains__ (self : t) (req : Request) : bool :=
  bool_decide (is_Some (cache self !! dict_key req)).

Definition invalidate (self : t) (req : Request) : t :=
  mk (delete (dict_key req) (cache self)).

(** [self.cache[req]] after the [if]: the key is present on every path that
    reaches it; a missing key would be a [KeyError]. *)
Definition __getitem__ (self : t) (req : Request) : result Response :=
  match cache self !! dict_key req with
  | Some resp => Ok resp
  | None => Raise (mk_exn KeyError [])
  end.

Definition send (net : transport) (self : t) (sent : list Request)
    (req : Request) (use_cached : bool)
  : result Response * t * list Request :=
  if negb use_cached || negb (__contains__ self req) then
    match requests_session_send net sent req with
    | (Ok resp, sent') =>
        let self' := mk (<[dict_key req := resp]> (cache self)) in
        (__getitem__ self' req, self', sent')
    | (Raise e, sent') => (Raise e, self, sent')
    end
  else (__getitem__ self req, self, sent).
End RequestCache.

(** ** [ResponseCache] (response_cache.py) *)

Module ResponseCache.
Record t := mk { cache : gmap obj_id Response }.

Definition __init__ : t := mk ∅.

Definition __contains__ (self : t) (req : Request) : bool :=
  bool_decide (is_Some (cache self !! dict_key req)).

Definition invalidate (self : t) (req : Request) : t :=
  mk (delete (dict_key req) (cache self)).

Definition __getitem__ (self : t) (req : Request) : result Response :=
  match cache self !! dict_key req with
  | Some resp => Ok resp
  | None => Raise (mk_exn KeyError [])
  end.

Definition send (net : transport) (self : t) (sent : list Request)
    (req : Request) (use_cached : bool)
  : result Response * t * list Request :=
  if negb use_cached || negb (__contains__ self req) then
    match Session_send net sent req with
    | (Ok resp, sent') =>
        let self' := mk (<[dict_key req := resp]> (cache self)) in
        (__getitem__ self' req, self', sent')
    | (Raise e, sent') => (Raise e, self, sent')
    end
  else (__getitem__ self req, self, sent).
End ResponseCache.

(** The two cache objects hold the same dictionary. *)
Definition same_cache (a : RequestCache.t) (b : ResponseCache.t) : Prop :=
  RequestCache.cache a = ResponseCache.cache b.

(** The operations of a cache, for running the two classes side by side. *)
Inductive cache_op :=
| OpContains (req : Request)
| OpInvalidate (req : Request)
| OpSend (req : Request) (use_cached : bool).

(** What an operation hands back to its caller. *)
Inductive cache_out :=
| OutBool (b : bool)
| OutNone
| OutResponse (r : result Response).

Definition RequestCache_step (net : transport)
    (st : RequestCache.t * list Request) (op : cache_op)
  : cache_out * (RequestCache.t * list Request) :=
  let '(self, sent) := st in
  match op with
  | OpContains req => (OutBool (RequestCache.__contains__ self req), st)
  | OpInvalidate req => (OutNone, (RequestCache.invalidate self req, sent))
  | OpSend req use_cached =>
      let '(r, self', sent') := RequestCache.send net self sent req use_cached in
      (OutResponse r, (self', sent'))
  end.

Definition ResponseCache_step (net : transport)
    (st : ResponseCache.t * list Request) (op : cache_op)
  : cache_out * (ResponseCache.t * list Request) :=
  let '(self, sent) := st in
  match op with
  | OpContains req => (OutBool (ResponseCache.__contains__ self req), st)
  | OpInvalidate req => (OutNone, (ResponseCache.invalidate self req, sent))
  | OpSend req use_cached =>
      let '(r, self', sent') := ResponseCache.send net self sent req use_cached in
      (OutResponse r, (self', sent'))
  end.

(** Run a sequence of operations, collecting the results. *)
Fixpoint run {S : Type} (step : S -> cache_op -> cache_out * S)
    (st : S) (ops : list cache_op) : list cache_out * S :=
  match ops with
  | [] => ([], st)
  | op :: ops' =>
      let '(out, st') := step st op in
      let '(outs, st'') := run step st' ops' in
      (out :: outs, st'')
  end.

(** ** [configparser.ConfigParser], as the code uses it *)

(** [str.lower()].  Strings are byte strings here, and the case mapping is
    that of the ASCII letters; it is Python's on ASCII text. *)
Definition ascii_lower (c : ascii) : ascii :=
  let n := N_of_ascii c in
  if (65 <=? n)%N && (n <=? 90)%N then ascii_of_N (n + 32) else c.

Fixpoint str_lower (s : string) : string :=
  match s with
  | EmptyString => EmptyString
  | String c t => String (ascii_lower c) (str_lower t)
  end.


(** [RawConfigParser.optionxform] *)
Definition optionxform (optionstr : string) : string := str_lower optionstr.

(** A parser object: the options of the [DEFAULT] section and the other
    sections, each a dictionary from option names, as [optionxform] gave
    them, to values. *)
Record ConfigParser := mk_ConfigParser {
  _defaults : gmap string string;
  _sections : gmap string (gmap string string)
}.

(** [ConfigParser()] *)
Definition ConfigParser_new : ConfigParser := mk_ConfigParser ∅ ∅.

Definition default_section : string := "DEFAULT".

Definition MAX_INTERPOLATION_DEPTH : nat := 10.

Definition Path := string.

(** The ways the parser fails on a file that opens. *)
Inductive parse_error :=
| MissingSectionHeader
| Parsing
| DuplicateSection
| DuplicateOption.

Definition parse_exn (k : parse_error) (args : list string) : exn :=
  mk_exn
    match k with
    | MissingSectionHeader => MissingSectionHeaderError
    | Parsing => ParsingError
    | DuplicateSection => DuplicateSectionError
    | DuplicateOption => DuplicateOptionError
    end args.

(** What is at a path: nothing, something that cannot be opened, a file
    that opens but that the parser rejects, or a file that parses to a
    [DEFAULT] section and further sections.  The file format and its
    parsing are the standard library's. *)
Inductive file :=
| NoFile
| Unreadable
| Malformed (k : parse_error) (args : list string)
| ConfigFile (content : ConfigParser).

Definition filesystem := Path -> file.

(** [Path.is_file()] *)
Definition is_file (fs : filesystem) (p : Path) : bool :=
  match fs p with NoFile => false | _ => true end.

(** ["%" in s] *)
Fixpoint has_percent (s : string) : bool :=
  match s with
  | EmptyString => false
  | String c t => Ascii.eqb c "%" || has_percent t
  end.

(** [rest.find("%")]: the text before the first ["%"] and, when there is
    one, the text from it on. *)
Fixpoint split_at_percent (s : string) : string * option string :=
  match s with
  | EmptyString => (EmptyString, None)
  | String c t =>
      if Ascii.eqb c "%" then (EmptyString, Some s)
      else let '(before, from) := split_at_percent t in (String c before, from)
  end.

(** The characters before the first [")"] and those after it. *)
Fixpoint until_paren (s : string) : option (string * string) :=
  match s with
  | EmptyString => None
  | String c t =>
      if Ascii.eqb c ")" then Some (EmptyString, t)
      else match until_paren t with
           | Some (name, after) => Some (String c name, after)
           | None => None
           end
  end.

(** [_KEYCRE.match(rest)] for the pattern [%\(([^)]+)\)s]: the group and
    [rest[m.end():]]. *)
Definition _KEYCRE_match (rest : string) : option (string * string) :=
  match rest with
  | String "%" (String "(" t) =>
      match until_paren t with
      | Some (String c name, String "s" after) => Some (String c name, after)
      | _ => None
      end
  | _ => None
  end.

(** The [while rest:] loop of [BasicInterpolation._interpolate_some];
    [fuel] bounds its iterations and is the length of [rest], of which
    every iteration consumes a character.  [recurse] is the nested call at
    [depth + 1].  The text appended to [accum] is returned.  Of the
    arguments of the exceptions the message text is left out. *)
Fixpoint interpolate_loop (recurse : string -> result string)
    (map : gmap string string) (option section rawval : string)
    (fuel : nat) (rest : string) : result string :=
  match fuel with
  | 0 => Ok EmptyString
  | S fuel' =>
      match rest with
      | EmptyString => Ok EmptyString
      | _ =>
          match split_at_percent rest with
          | (_, None) => Ok rest
          | (before, Some rest) =>
              match rest with
              | String _ (String "%" rest) =>
                  tail ← interpolate_loop recurse map option section rawval
                           fuel' rest;
                  Ok (before ++ "%" ++ tail)
              | String _ (String "(" _) =>
                  match _KEYCRE_match rest with
                  | None =>
                      Raise (mk_exn InterpolationSyntaxError [option; section])
                  | Some (name, rest) =>
                      let var := optionxform name in
                      match map !! var with
                      | None =>
                          Raise (mk_exn InterpolationMissingOptionError
                                   [option; section; rawval; var])
                      | Some v =>
                          expansion ← (if has_percent v then recurse v
                                       else Ok v);
                          tail ← interpolate_loop recurse map option section
                                   rawval fuel' rest;
                          Ok (before ++ expansion ++ tail)
                      end
                  end
              | _ => Raise (mk_exn InterpolationSyntaxError [option; section])
              end
          end
      end
  end.

(** [BasicInterpolation._interpolate_some]; [levels] is
    [MAX_INTERPOLATION_DEPTH + 1 - depth]. *)
Fixpoint _interpolate_some (levels : nat) (map : gmap string string)
    (option section rawval rest : string) : result string :=
  match levels with
  | 0 => Raise (mk_exn InterpolationDepthError [option; section; rawval])
  | S levels' =>
      interpolate_loop
        (fun v => _interpolate_some levels' map option section rawval v)
        map option section rawval (String.length rest) rest
  end.

(** [BasicInterpolation.before_get] *)
Definition before_get (section option value : string)
    (defaults : gmap string string) : result string :=
  _interpolate_some MAX_INTERPOLATION_DEPTH defaults option section value value.

(** [value.replace('%%', '')] *)
Fixpoint remove_escapes (s : string) : string :=
  match s with
  | String "%" (String "%" t) => remove_escapes t
  | String c t => String c (remove_escapes t)
  | EmptyString => EmptyString
  end.

(** [_KEYCRE.sub('', s)]; [fuel] is the length of [s]. *)
Fixpoint remove_keys (fuel : nat) (s : string) : string :=
  match fuel with
  | 0 => s
  | S fuel' =>
      match _KEYCRE_match s with
      | Some (_, after) => remove_keys fuel' after
      | None =>
          match s with
          | EmptyString => EmptyString
          | String c t => String c (remove_keys fuel' t)
          end
      end
  end.

(** [BasicInterpolation.before_set] *)
Definition before_set (value : string) : result string :=
  let tmp_value := remove_escapes value in
  let tmp_value := remove_keys (String.length tmp_value) tmp_value in
  if has_percent tmp_value then Raise (mk_exn ValueError [])
  else Ok value.

(** [not section or section == self.default_section] *)
Definition names_defaults (section : string) : bool :=
  bool_decide (section = "") || bool_decide (section = default_section).

Definition has_option (cfg : ConfigParser) (section opt : string) : bool :=
  if names_defaults section then
    bool_decide (is_Some (_defaults cfg !! optionxform opt))
  else
    match _sections cfg !! section with
    | None => false
    | Some sectiondict =>
        bool_decide (is_Some (sectiondict !! optionxform opt)) ||
        bool_decide (is_Some (_defaults cfg !! optionxform opt))
    end.

(** [RawConfigParser._unify_values] without [vars]: the chain of the
    section's options and the defaults, the section's first. *)
Definition _unify_values (cfg : ConfigParser) (section : string)
  : result (gmap string string) :=
  match _sections cfg !! section with
  | Some sectiondict => Ok (sectiondict ∪ _defaults cfg)
  | None =>
      if bool_decide (section <> default_section)
      then Raise (mk_exn NoSectionError [section])
      else Ok (∅ ∪ _defaults cfg)
  end.

(** [cfg.get(section, option)] *)
Definition cfg_get (cfg : ConfigParser) (section opt : string)
  : result string :=
  d ← _unify_values cfg section;
  let option := optionxform opt in
  match d !! option with
  | None => Raise (mk_exn NoOptionError [option; section])
  | Some value => before_get section option value d
  end.

(** [cfg.set(section, option, value)] *)
Definition cfg_set (cfg : ConfigParser) (section opt value : string)
  : result ConfigParser :=
  value ← match value with
          | EmptyString => Ok value
          | _ => before_set value
          end;
  if names_defaults section then
    Ok (mk_ConfigParser (<[optionxform opt := value]> (_defaults cfg))
          (_sections cfg))
  else
    match _sections cfg !! section with
    | None => Raise (mk_exn NoSectionError [section])
    | Some sectdict =>
        Ok (mk_ConfigParser (_defaults cfg)
              (<[section := <[optionxform opt := value]> sectdict]>
                 (_sections cfg)))
    end.

(** Reading one file adds its sections and its defaults; an option read
    later replaces the value read earlier. *)
Definition merge_file (content cfg : ConfigParser) : ConfigParser :=
  mk_ConfigParser (_defaults content ∪ _defaults cfg)
    (union_with (fun new old => Some (new ∪ old))
       (_sections content) (_sections cfg)).

(** [cfg.read(filenames)]: files that cannot be opened are skipped, a file
    that opens and does not parse raises the parser's error; the names of
    the files read are returned. *)
Fixpoint cfg_read (fs : filesystem) (cfg : ConfigParser)
    (filenames : list Path) : result (ConfigParser * list Path) :=
  match filenames with
  | [] => Ok (cfg, [])
  | filename :: rest =>
      match fs filename with
      | ConfigFile content =>
          '(cfg', read_ok) ← cfg_read fs (merge_file content cfg) rest;
          Ok (cfg', filename :: read_ok)
      | Malformed k args => Raise (parse_exn k args)
      | _ => cfg_read fs cfg rest
      end
  end.

(** ** [Kattis] *)

Module Kattis.

Definition CONFIG_FILENAME : string := ".kattisrc".
Definition DEFAULT_CONFIG : Path := "/usr/local/etc/kattisrc".
Definition HEADERS : gmap string string :=
  {["User-Agent" := "kattis-cli-submit"]}.

(** *** config *)

Definition _read_config (fs : filesystem) (paths : list Path)
  : result ConfigParser :=
  let cfg := ConfigParser_new in
  cfg ← (if is_file fs DEFAULT_CONFIG
         then fst <$> cfg_read fs cfg [DEFAULT_CONFIG]
         else Ok cfg);
  '(cfg, read_ok) ← cfg_read fs cfg paths;
  match read_ok with
  | [] => Raise (mk_exn ConfigError [])
  | _ :: _ =>
      if negb (has_option cfg "kattis" "hostname")
      then cfg_set cfg "kattis" "hostname" "open.kattis.com"
      else Ok cfg
  end.

(** The session object: the parsed configuration and the attribute
    [_cache], absent until the [cache] property is first read. *)
Record t := mk { config : ConfigParser; _cache : option RequestCache.t }.

(** The argument [cfg_paths] of the constructor. *)
Inductive cfg_paths_arg :=
| PathsNone
| PathsOne (p : Path)
| PathsMany (ps : list Path).

(** [default_paths] is what [_default_config_paths()] returns in the
    process: [.kattisrc] in the home directory and next to the module. *)
Definition __init__ (fs : filesystem) (default_paths : list Path)
    (cfg_paths : cfg_paths_arg) : result t :=
  let cfg_paths :=
    match cfg_paths with
    | PathsNone => default_paths
    | PathsOne p => [p]
    | PathsMany ps => ps
    end in
  cfg ← _read_config fs cfg_paths; Ok (mk cfg None).

(** [get_cfg] returns the configured string or [default], which callers
    pass as a string or as [None]: [A] is the type of both, [of_str] the
    inclusion of strings into it. *)
Definition get_cfg {A : Type} (of_str : string -> A) (self : t)
    (opt : string) (default : A) (section : string) : result A :=
  if has_option (config self) section opt
  then of_str <$> cfg_get (config self) section opt
  else Ok default.

Definition get_url (self : t) (opt default section : string)
    (hostname : option string) : result string :=
  hostname ← match hostname with
             | None => cfg_get (config self) section "hostname"
             | Some h => Ok h
             end;
  get_cfg id self opt ("https://" ++ hostname ++ "/" ++ default) section.

(** *** basic info *)

Definition username (self : t) : result string :=
  cfg_get (config self) "user" "username".

Definition password (self : t) : result (option string) :=
  get_cfg Some self "password" None "user".

Definition token (self : t) : result (option string) :=
  get_cfg Some self "token" None "user".

Definition hostname (self : t) : result string :=
  get_cfg id self "hostname" "open.kattis.com" "kattis".

(** *** basic urls *)

Definition login_url (self : t) : result string :=
  get_url self "loginurl" "login" "kattis" None.

Definition logout_url (self : t) : result string :=
  get_url self "logouturl" "logout" "kattis" None.

Definition contests_url (self : t) : result string :=
  get_url self "contestsurl" "contests" "kattis" None.

(** A contest, problem, submission or user argument is an entity or a
    string; the f-strings format it with [str]. *)
Definition contest_url (self : t) (contest : object) : result string :=
  u ← contests_url self; Ok (u ++ "/" ++ str contest).

Definition submit_url (self : t) (contest : option object) : result string :=
  match contest with
  | None => get_url self "submissionurl" "submit" "kattis" None
  | Some c => u ← contest_url self c; Ok (u ++ "/submit")
  end.

Definition submissions_url (self : t) (contest : option object)
  : result string :=
  match contest with
  | None => get_url self "submissionsurl" "submissions" "kattis" None
  | Some c => u ← contest_url self c; Ok (u ++ "/submissions")
  end.

Definition problems_url (self : t) (contest : option object)
  : result string :=
  match contest with
  | None => get_url self "problemsurl" "problems" "kattis" None
  | Some c => u ← contest_url self c; Ok (u ++ "/problems")
  end.

Definition past_contests_url (self : t) : result string :=
  get_url self "pastcontestsurl" "past-contests" "kattis" None.

Definition challenge_url (self : t) : result string :=
  get_url self "challengeurl" "challenge" "kattis" None.

Definition users_url (self : t) : result string :=
  get_url self "usersurl" "users" "kattis" None.

Definition ranklist_url (self : t) : result string :=
  get_url self "ranklisturl" "ranklist" "kattis" None.

Definition affiliations_url (self : t) : result string :=
  get_url self "affiliationsurl" "affiliations" "kattis" None.

Definition countries_url (self : t) : result string :=
  get_url self "countriesurl" "countries" "kattis" None.

Definition authors_url (self : t) : result string :=
  get_url self "authorsurl" "problem-authors" "kattis" None.

Definition sources_url (self : t) : result string :=
  get_url self "sourcesurl" "problem-sources" "kattis" None.

Definition jobs_url (self : t) : result string :=
  get_url self "jobsurl" "jobs" "kattis" None.

Definition relay_url (self : t) : result string :=
  get_url self "relayurl" "relay" "kattis" None.

Definition languages_url (self : t) : result string :=
  get_url self "languagesurl" "languages" "kattis" None.

Definition info_url (self : t) : result string :=
  get_url self "infourl" "info" "kattis" None.

Definition policies_url (self : t) : result string :=
  get_url self "policiesurl" "policies" "kattis" None.

Definition search_url (self : t) : result string :=
  get_url self "searchurl" "search" "kattis" None.

Definition support_url (self : t) : result string :=
  get_url self "supporturl" "supporter" "kattis" None.

Definition request_affiliation_url (self : t) : result string :=
  get_url self "requestaffiliationurl" "request-affiliation" "kattis" None.

(** *** other urls *)

Definition submission_url (self : t) (submission : object)
    (contest : option object) : result string :=
  u ← submissions_url self contest; Ok (u ++ "/" ++ str submission).

Definition problem_url (self : t) (problem : object)
    (contest : option object) : result string :=
  u ← problems_url self contest; Ok (u ++ "/" ++ str problem).

Definition problem_statistics_url (self : t) (problem : object)
    (contest : option object) : result string :=
  u ← problem_url self problem contest; Ok (u ++ "/statistics").

Definition user_url (self : t) (user : option object) : result string :=
  user ← match user with
         | None => username self
         | Some u => Ok (str u)
         end;
  u ← users_url self; Ok (u ++ "/" ++ user).

(** *** requests *)

(** The running process: the session object, the requests that went
    through the transport so far, and the identity the next allocated
    object gets. *)
Record process := mk_process {
  session : t;
  sent : list Request;
  next_id : obj_id
}.

(** Computations that change the process and may raise.  What was changed
    before the exception stays changed. *)
Definition M (A : Type) : Type := process -> result A * process.

#[global] Instance M_ret : MRet M := fun A a p => (Ok a, p).
#[global] Instance M_bind : MBind M := fun A B f m p =>
  match m p with
  | (Ok a, p') => f a p'
  | (Raise e, p') => (Raise e, p')
  end.

Definition raise {A : Type} (e : exn) : M A := fun p => (Raise e, p).

(** Reading the session without changing anything. *)
Definition lift {A : Type} (f : t -> result A) : M A :=
  fun p => (f (session p), p).

(** [Request(method, url, headers, data, params, cookies)]: a new object. *)
Definition Request_new (method url : string) (headers data params : gmap string string)
    (cookies : option (gmap string string)) : M Request :=
  fun p =>
    (Ok (mk_Request (next_id p) method url headers data params cookies),
     mk_process (session p) (sent p) (S (next_id p))).

(** The property [cache]: creates the attribute on first access. *)
Definition cache : M RequestCache.t := fun p =>
  match _cache (session p) with
  | Some c => (Ok c, p)
  | None =>
      let c := RequestCache.__init__ in
      (Ok c, mk_process (mk (config (session p)) (Some c)) (sent p) (next_id p))
  end.

(** Running a method on the cache object [c] and storing the object back:
    the method works on the one cache object the session holds, so what it
    does to the object is seen by every later read of [self.cache]. *)
Definition on_cache {A : Type}
    (method : RequestCache.t -> list Request ->
              result A * RequestCache.t * list Request)
    (c : RequestCache.t) : M A :=
  fun p =>
    let '(r, c', sent') := method c (sent p) in
    (r, mk_process (mk (config (session p)) (Some c')) sent' (next_id p)).

(** A method call on [self.cache]. *)
Definition cache_call {A : Type}
    (method : RequestCache.t -> list Request ->
              result A * RequestCache.t * list Request) : M A :=
  c ← cache; on_cache method c.

(** *** login *)

Definition login_request : M Request :=
  pw ← lift password;
  tk ← lift token;
  if bool_decide (pw = None) && bool_decide (tk = None)
  then raise (mk_exn ConfigError ["password and token both missing"])
  else
    user ← lift username;
    let data : gmap string string := <["script" := "true"]> {["user" := user]} in
    pw ← lift password;
    let data := match pw with Some v => <["password" := v]> data | None => data end in
    tk ← lift token;
    let data := match tk with Some v => <["token" := v]> data | None => data end in
    url ← lift login_url;
    Request_new "post" url HEADERS data ∅ None.

(** [self.cache.send(self.login_request, use_cached)]: the receiver
    [self.cache] is evaluated before the argument [self.login_request]. *)
Definition send_login_request (net : transport) (use_cached : bool)
  : M Response :=
  _ ← cache;
  req ← login_request;
  cache_call (fun c sent => RequestCache.send net c sent req use_cached).

Definition login (net : transport) (use_cached : bool) : M Response :=
  resp ← send_login_request net use_cached;
  if (status_code resp =? 403)%Z then
    user ← lift username;
    raise (mk_exn Exception ["403: bad credentials for " ++ user])
  else if (status_code resp =? 404)%Z then
    url ← lift login_url;
    raise (mk_exn Exception ["404: incorrect login URL " ++ url])
  else if negb (status_code resp =? 200)%Z then
    raise (mk_exn Exception
             ["login failed with status " ++ str_int (status_code resp)])
  else mret resp.

Definition is_logged_in : M bool :=
  req ← login_request;
  cache_call (fun c sent => (Ok (RequestCache.__contains__ c req), c, sent)).

Definition logout : M unit :=
  _ ← cache;
  req ← login_request;
  cache_call (fun c sent => (Ok (), RequestCache.invalidate c req, sent)).

Definition login_response (net : transport) : M Response := login net true.

Definition cookies (net : transport) : M (gmap string string) :=
  resp ← login_response net; mret (cookies_of resp).

Definition get (net : transport) (url : string)
    (data params : option (gmap string string)) (use_cached : bool)
  : M Response :=
  ck ← cookies net;
  req ← Request_new "get" url HEADERS (default ∅ data) (default ∅ params)
          (Some ck);
  _ ← cache;
  cache_call (fun c sent => RequestCache.send net c sent req use_cached).

End Kattis.

(** A path is read when it opens as a configuration file. *)
Definition readable (fs : filesystem) (p : Path) : bool :=
  match fs p with ConfigFile _ => true | _ => false end.

(** The keys of the session's cache are identities of objects allocated
    earlier in the process. *)
Definition allocated (p : Kattis.process) : Prop :=
  forall c k resp,
    Kattis._cache (Kattis.session p) = Some c ->
    RequestCache.cache c !! k = Some resp -> k < Kattis.next_id p.

(** The configuration holds neither a password nor a token. *)
Definition no_credentials (cfg : ConfigParser) : Prop :=
  has_option cfg "user" "password" = false /\
  has_option cfg "user" "token" = false.

(** What [login_request] raises then. *)
Definition missing_credentials : exn :=
  mk_exn ConfigError ["password and token both missing"].

(** ** The [url] methods of the entities *)

(** Each method asks the session the entity refers to; [k] is that session
    object, [self.kattis]. *)
Definition Contest_url (k : Kattis.t) (self : Contest.t) : result string :=
  Kattis.contest_url k (OContest self).

Definition Submission_url (k : Kattis.t) (self : Submission.t)
    (contest : option object) : result string :=
  Kattis.submission_url k (OSubmission self) contest.

Definition Problem_url (k : Kattis.t) (self : Problem.t)
    (contest : option object) : result string :=
  Kattis.problem_url k (OProblem self) contest.

Definition Problem_statistics_url (k : Kattis.t) (self : Problem.t)
    (contest : option object) : result string :=
  Kattis.problem_statistics_url k (OProblem self) contest.

Definition User_url (k : Kattis.t) (self : User.t) : result string :=
  Kattis.user_url k (Some (OUser self)).

(** [e.url()], for any entity. *)
Definition entity_url (k : Kattis.t) (e : entity) : result string :=
  match e with
  | EContest c => Contest_url k c
  | ESubmission s => Submission_url k s None
  | EProblem p => Problem_url k p None
  | EUser u => User_url k u
  end.

(** The URL of the collection an entity of a kind belongs to. *)
Definition collection_url (k : Kattis.t) (kd : kind) : result string :=
  match kd with
  | KContest => Kattis.contests_url k
  | KSubmission => Kattis.submissions_url k None
  | KProblem => Kattis.problems_url k None
  | KUser => Kattis.users_url k
  end.

(** The computation returns a value. *)
Definition returns {A : Type} (r : result A) : Prop := exists a, r = Ok a.

(** ** Vocabulary of the further properties *)

(** The number of [send] operations in a sequence. *)
Fixpoint count_sends (ops : list cache_op) : nat :=
  match ops with
  | [] => 0
  | OpSend _ _ :: ops' => S (count_sends ops')
  | _ :: ops' => count_sends ops'
  end.

(** Every entry of the dictionary is the answer the transport gave to a
    logged call for the request object the entry is filed under. *)
Definition cached_from_transport (net : transport)
    (cache : gmap obj_id Response) (sent : list Request) : Prop :=
  forall k resp,
    cache !! k = Some resp ->
    exists pre r post,
      sent = (pre ++ r :: post)%list /\ dict_key r = k /\
      net pre r = Ok resp.

(** The value a parser holds for an option name in a section of its own
    (not the [DEFAULT] section), if it holds the section and the option. *)
Definition opt_lookup (cfg : ConfigParser) (section opt : string)
  : option string :=
  _sections cfg !! section ≫= (.!! opt).

(** The raw value [get] finds for an option in a section: the section's
    own, or else the default. *)
Definition visible (cfg : ConfigParser) (section opt : string)
  : option string :=
  match _sections cfg !! section with
  | Some sectiondict => (sectiondict ∪ _defaults cfg) !! optionxform opt
  | None => None
  end.

(** No value the parser holds contains a ["%"]. *)
Definition plain (cfg : ConfigParser) : Prop :=
  map_Forall (fun _ v => has_percent v = false) (_defaults cfg) /\
  map_Forall (fun _ sectiondict =>
                map_Forall (fun _ v => has_percent v = false) sectiondict)
    (_sections cfg).



(** The file at [p] opens as a configuration file that sets the option in
    the section. *)
Definition defines (fs : filesystem) (section opt : string) (p : Path)
  : bool :=
  match fs p with
  | ConfigFile content => bool_decide (is_Some (opt_lookup content section opt))
  | _ => false
  end.

(** The file at [p] opens as a configuration file that sets the option in
    its [DEFAULT] section. *)
Definition defines_default (fs : filesystem) (opt : string) (p : Path)
  : bool :=
  match fs p with
  | ConfigFile content => bool_decide (is_Some (_defaults content !! opt))
  | _ => false
  end.


(** The dictionary of the session's cache; empty while the attribute
    [_cache] is not there. *)
Definition cache_dict (p : Kattis.process) : gmap obj_id Response :=
  match Kattis._cache (Kattis.session p) with
  | Some c => RequestCache.cache c
  | None => ∅
  end.

(** What every session operation keeps: the configuration stays, the log
    of network calls only grows, object identities are never handed out
    twice, and the keys of the cache stay identities of allocated
    objects. *)
Definition extends (p p' : Kattis.process) : Prop :=
  Kattis.config (Kattis.session p') = Kattis.config (Kattis.session p) /\
  (exists more, Kattis.sent p' = (Kattis.sent p ++ more)%list) /\
  Kattis.next_id p <= Kattis.next_id p' /\
  (allocated p -> allocated p').

(** The operations of a session. *)
Inductive session_op :=
| SLogin (use_cached : bool)
| SIsLoggedIn
| SLogout
| SCookies
| SGet (url : string) (data params : option (gmap string string))
    (use_cached : bool).

(** The process after an operation, whether it returned or raised. *)
Definition session_step (net : transport) (p : Kattis.process)
    (op : session_op) : Kattis.process :=
  match op with
  | SLogin use_cached => (Kattis.login net use_cached p).2
  | SIsLoggedIn => (Kattis.is_logged_in p).2
  | SLogout => (Kattis.logout p).2
  | SCookies => (Kattis.cookies net p).2
  | SGet url data params use_cached =>
      (Kattis.get net url data params use_cached p).2
  end.

Definition session_run (net : transport) (p : Kattis.process)
    (ops : list session_op) : Kattis.process :=
  fold_left (session_step net) ops p.

(** ** Concrete inputs used in the examples below *)

(** A transport that answers every request with status [code] and hands out
    a new response object on every call. *)
Definition stub (code : Z) : transport :=
  mk_transport (fun _ => None)
    (fun hist _ => Ok (mk_Response (length hist) code ∅)).

(** A transport that is down. *)
Definition unreachable : transport :=
  mk_transport (fun _ => None)
    (fun _ _ => Raise (mk_exn RequestException ["connection refused"])).

(** A network layer that refuses to prepare a request whose URL does not
    start with [http], and answers 200 otherwise. *)
Definition needs_scheme : transport :=
  mk_transport
    (fun req =>
       if String.prefix "http" (req_url req) then None
       else Some (mk_exn RequestException ["MissingSchema"]))
    (fun hist _ => Ok (mk_Response (length hist) 200 ∅)).

(** Two request objects with the same fields. *)
Definition problems_request (id : obj_id) : Request :=
  mk_Request id "get" "https://open.kattis.com/problems" Kattis.HEADERS ∅ ∅
    None.

(** A configuration with a user, a password and a host name. *)
Definition alice_config : ConfigParser :=
  mk_ConfigParser ∅
    (<["user" := <["password" := "secret"]> {["username" := "alice"]}]>
       {["kattis" := {["hostname" := "open.kattis.com"]}]}).

(** The same without credentials. *)
Definition anonymous_config : ConfigParser :=
  mk_ConfigParser ∅
    (<["user" := {["username" := "alice"]}]>
       {["kattis" := {["hostname" := "open.kattis.com"]}]}).

(** A configuration file that sets nothing but the host name. *)
Definition example_com : ConfigParser :=
  mk_ConfigParser ∅ {["kattis" := {["hostname" := "example.com"]}]}.

Definition start (cfg : ConfigParser) : Kattis.process :=
  Kattis.mk_process (Kattis.mk cfg None) [] 0.

(** A file system holding one file. *)
Definition single_file (path : Path) (content : ConfigParser) : filesystem :=
  fun p => if String.eqb p path then ConfigFile content else NoFile.

(** A configuration file with a user name and nothing else. *)
Definition user_only : ConfigParser :=
  mk_ConfigParser ∅ {["user" := {["username" := "alice"]}]}.

(** A configuration file whose [kattis] section overrides the login URL and
    sets no host name. *)
Definition custom_login : ConfigParser :=
  mk_ConfigParser ∅ {["kattis" := {["loginurl" := "https://x/custom-login"]}]}.




(** A file system holding the system-wide default file and one more. *)
Definition with_default (default_content : ConfigParser)
    (path : Path) (content : ConfigParser) : filesystem :=
  fun p =>
    if String.eqb p Kattis.DEFAULT_CONFIG then ConfigFile default_content
    else if String.eqb p path then ConfigFile content
    else NoFile.

#[global] Instance kind_eq_dec : EqDecision kind.
Proof. solve_decision. Defined.

(** * Properties *)

(** ** Entities *)

Lemma entity_eq_spec (a b : entity) :
  py_eq a (to_object b) =
  bool_decide (kind_of a = kind_of b) &&
  String.eqb (identifier a) (identifier b).
Proof. destruct a, b; reflexivity. Qed.

Lemma entity_lt_spec (a b : entity) :
  py_lt a (to_object b) =
  if bool_decide (kind_of a = kind_of b)
  then Ok (String.ltb (identifier a) (identifier b))
  else Raise (mk_exn TypeError []).
Proof. destruct a, b; reflexivity. Qed.

Lemma entity_le_spec (a b : entity) :
  py_le a (to_object b) =
  if bool_decide (kind_of a = kind_of b)
  then Ok (String.ltb (identifier a) (identifier b) ||
           String.eqb (identifier a) (identifier b))
  else Raise (mk_exn TypeError []).
Proof. destruct a, b; reflexivity. Qed.

Lemma entity_gt_spec (a b : entity) :
  py_gt a (to_object b) =
  if bool_decide (kind_of a = kind_of b)
  then Ok (negb (String.ltb (identifier a) (identifier b)) &&
           negb (String.eqb (identifier a) (identifier b)))
  else Raise (mk_exn TypeError []).
Proof. destruct a, b; reflexivity. Qed.

Lemma entity_ge_spec (a b : entity) :
  py_ge a (to_object b) =
  if bool_decide (kind_of a = kind_of b)
  then Ok (negb (String.ltb (identifier a) (identifier b)))
  else Raise (mk_exn TypeError []).
Proof. destruct a, b; reflexivity. Qed.

(** C8. Equality, hashing and ordering of entities look at the kind and
    the identifier only: the hash is the hash of the identifier; two
    entities are equal exactly when they are of one kind and their
    identifiers are equal; [<], [<=], [>] and [>=] compare the identifiers
    of entities of one kind and raise [TypeError] across kinds.  So
    [Problem("a") < Problem("b")] is true, [Problem("a") == User("a")] is
    false and [Problem("a") < User("b")] raises [TypeError]; the session
    the entities belong to plays no part. *)
Theorem entity_identity_by_kind_and_identifier (hash : string -> Z) :
  (forall a : entity, py_hash hash a = hash (identifier a)) /\
  (forall a b : entity,
     py_eq a (to_object b) =
     bool_decide (kind_of a = kind_of b /\ identifier a = identifier b)) /\
  (forall a b : entity,
     py_lt a (to_object b) =
     if bool_decide (kind_of a = kind_of b)
     then Ok (String.ltb (identifier a) (identifier b))
     else Raise (mk_exn TypeError [])) /\
  (forall a b : entity,
     py_le a (to_object b) =
     if bool_decide (kind_of a = kind_of b)
     then Ok (String.ltb (identifier a) (identifier b) ||
              String.eqb (identifier a) (identifier b))
     else Raise (mk_exn TypeError [])) /\
  (forall a b : entity,
     py_gt a (to_object b) =
     if bool_decide (kind_of a = kind_of b)
     then Ok (negb (String.ltb (identifier a) (identifier b)) &&
              negb (String.eqb (identifier a) (identifier b)))
     else Raise (mk_exn TypeError [])) /\
  (forall a b : entity,
     py_ge a (to_object b) =
     if bool_decide (kind_of a = kind_of b)
     then Ok (negb (String.ltb (identifier a) (identifier b)))
     else Raise (mk_exn TypeError [])) /\
  (forall k1 k2 : obj_id,
     Problem.__lt__ (Problem.__init__ k1 "a")
       (OProblem (Problem.__init__ k2 "b")) = Ok true /\
     Problem.__eq__ (Problem.__init__ k1 "a")
       (OUser (User.__init__ k2 "a")) = false /\
     Problem.__lt__ (Problem.__init__ k1 "a")
       (OUser (User.__init__ k2 "b")) = Raise (mk_exn TypeError [])).
Proof.
  split; [by intros []|].
  split.
  { intros a b. rewrite entity_eq_spec.
    destruct (decide (kind_of a = kind_of b)) as [Hk|Hk].
    - rewrite (bool_decide_eq_true_2 _ Hk). simpl.
      destruct (String.eqb_spec (identifier a) (identifier b)) as [Hi|Hi].
      + symmetry. by apply bool_decide_eq_true_2.
      + symmetry. apply bool_decide_eq_false_2. tauto.
    - rewrite (bool_decide_eq_false_2 _ Hk). simpl.
      symmetry. apply bool_decide_eq_false_2. tauto. }
  split; [apply entity_lt_spec|].
  split; [apply entity_le_spec|].
  split; [apply entity_gt_spec|].
  split; [apply entity_ge_spec|].
  done.
Qed.

(** ** The two caches *)

Lemma send_same_cache net a b sent req use_cached :
  same_cache a b ->
  let '(r1, a', s1) := RequestCache.send net a sent req use_cached in
  let '(r2, b', s2) := ResponseCache.send net b sent req use_cached in
  r1 = r2 /\ same_cache a' b' /\ s1 = s2.
Proof.
  destruct a as [m], b as [m']. unfold same_cache. simpl. intros <-.
  unfold RequestCache.send, ResponseCache.send, requests_session_send,
    RequestCache.__contains__, ResponseCache.__contains__,
    RequestCache.__getitem__, ResponseCache.__getitem__. simpl.
  destruct (negb use_cached || _); [|done].
  unfold Session_send. destruct (prepare_error net req); [done|].
  by destruct (net sent req).
Qed.

Lemma step_same_cache net a b sent op :
  same_cache a b ->
  let '(o1, (a', s1)) := RequestCache_step net (a, sent) op in
  let '(o2, (b', s2)) := ResponseCache_step net (b, sent) op in
  o1 = o2 /\ same_cache a' b' /\ s1 = s2.
Proof.
  intros H. destruct op as [req|req|req use_cached]; simpl.
  - split; [|done]. unfold RequestCache.__contains__,
      ResponseCache.__contains__. by rewrite H.
  - split; [done|]. split; [|done].
    unfold same_cache, RequestCache.invalidate, ResponseCache.invalidate.
    simpl. by rewrite H.
  - pose proof (send_same_cache net a b sent req use_cached H) as Hs.
    destruct (RequestCache.send net a sent req use_cached) as [[r1 a'] s1].
    destruct (ResponseCache.send net b sent req use_cached) as [[r2 b'] s2].
    destruct Hs as (-> & ? & ->). done.
Qed.

Lemma run_same_cache net ops : forall a b sent,
  same_cache a b ->
  let '(o1, (a', s1)) := run (RequestCache_step net) (a, sent) ops in
  let '(o2, (b', s2)) := run (ResponseCache_step net) (b, sent) ops in
  o1 = o2 /\ same_cache a' b' /\ s1 = s2.
Proof.
  induction ops as [|op ops IH]; intros a b sent H; [done|].
  cbn [run].
  pose proof (step_same_cache net a b sent op H) as Hs.
  destruct (RequestCache_step net (a, sent) op) as [o1 [a1 s1]].
  destruct (ResponseCache_step net (b, sent) op) as [o2 [b1 s2]].
  destruct Hs as (-> & H1 & ->).
  specialize (IH a1 b1 s2 H1).
  destruct (run (RequestCache_step net) (a1, s2) ops) as [os1 [a2 t1]].
  destruct (run (ResponseCache_step net) (b1, s2) ops) as [os2 [b2 t2]].
  destruct IH as (-> & ? & ->). done.
Qed.

(** C9. [RequestCache] and [ResponseCache] behave alike: from empty caches
    and over one transport, every sequence of [contains], [invalidate] and
    [send] operations gives the same results, the same final dictionary
    and the same network calls in both. *)
Theorem RequestCache_ResponseCache_equivalent (net : transport)
    (ops : list cache_op) :
  let '(outs1, (c1, sent1)) :=
    run (RequestCache_step net) (RequestCache.__init__, []) ops in
  let '(outs2, (c2, sent2)) :=
    run (ResponseCache_step net) (ResponseCache.__init__, []) ops in
  outs1 = outs2 /\ RequestCache.cache c1 = ResponseCache.cache c2 /\
  sent1 = sent2.
Proof.
  apply (run_same_cache net ops RequestCache.__init__ ResponseCache.__init__).
  reflexivity.
Qed.

(** ** [RequestCache.send] *)

Lemma contains_true (c : RequestCache.t) (req : Request) :
  RequestCache.__contains__ c req = true <->
  exists resp, RequestCache.cache c !! dict_key req = Some resp.
Proof.
  unfold RequestCache.__contains__. rewrite bool_decide_eq_true.
  reflexivity.
Qed.

Lemma contains_false (c : RequestCache.t) (req : Request) :
  RequestCache.__contains__ c req = false <->
  RequestCache.cache c !! dict_key req = None.
Proof.
  unfold RequestCache.__contains__. rewrite bool_decide_eq_false.
  rewrite <- eq_None_not_Some. reflexivity.
Qed.

(** A hit: no network call, the stored response, nothing changes. *)
Lemma send_hit net c sent req resp :
  RequestCache.cache c !! dict_key req = Some resp ->
  RequestCache.send net c sent req true = (Ok resp, c, sent).
Proof.
  intros H. unfold RequestCache.send.
  assert (RequestCache.__contains__ c req = true) as ->
    by (apply contains_true; eauto).
  simpl. unfold RequestCache.__getitem__. by rewrite H.
Qed.

(** A miss or a bypass: the request is prepared and, unless preparing it
    raises, sent in one network call; the response is stored and returned,
    an exception is passed on. *)
Lemma send_call net c sent req use_cached :
  use_cached = false \/ RequestCache.cache c !! dict_key req = None ->
  RequestCache.send net c sent req use_cached =
  match prepare_error net req with
  | Some e => (Raise e, c, sent)
  | None =>
      match net sent req with
      | Ok resp =>
          (Ok resp,
           RequestCache.mk (<[dict_key req := resp]> (RequestCache.cache c)),
           (sent ++ [req])%list)
      | Raise e => (Raise e, c, (sent ++ [req])%list)
      end
  end.
Proof.
  intros H. unfold RequestCache.send.
  assert (negb use_cached || negb (RequestCache.__contains__ c req) = true)
    as ->.
  { destruct H as [->|H]; [done|].
    apply contains_false in H. rewrite H. by destruct use_cached. }
  unfold requests_session_send, Session_send.
  destruct (prepare_error net req); [done|].
  destruct (net sent req) as [resp|e]; [|done].
  unfold RequestCache.__getitem__. simpl. by rewrite lookup_insert_eq.
Qed.

(** Sending the same request object twice: the second send is a hit. *)
Lemma send_same_object net c sent req use_cached resp c1 sent1 :
  RequestCache.send net c sent req use_cached = (Ok resp, c1, sent1) ->
  RequestCache.send net c1 sent1 req true = (Ok resp, c1, sent1).
Proof.
  intros H. apply send_hit.
  destruct use_cached.
  - destruct (RequestCache.cache c !! dict_key req) as [old|] eqn:Hc.
    + rewrite (send_hit _ _ _ _ _ Hc) in H. by simplify_eq.
    + rewrite send_call in H by auto.
      destruct (prepare_error net req); [simplify_eq|].
      destruct (net sent req); simplify_eq. simpl. apply lookup_insert_eq.
  - rewrite send_call in H by auto.
    destruct (prepare_error net req); [simplify_eq|].
    destruct (net sent req); simplify_eq. simpl. apply lookup_insert_eq.
Qed.

(** C1, at a failing input.  Two request objects with equal method, URL,
    headers, body, query parameters and cookies are sent one after the
    other through an empty cache, the second with [use_cached=True].  The
    dictionary files requests by object identity, so the second send
    misses: there are two network calls and the two sends return different
    response objects. *)
Theorem send_equal_requests_calls_twice :
  let r1 := problems_request 0 in
  let r2 := problems_request 1 in
  same_fields r1 r2 /\
  exists resp1 c1 sent1 resp2 c2 sent2,
    RequestCache.send (stub 200) RequestCache.__init__ [] r1 true =
      (Ok resp1, c1, sent1) /\
    RequestCache.send (stub 200) c1 sent1 r2 true = (Ok resp2, c2, sent2) /\
    length sent2 = 2 /\ resp1 <> resp2.
Proof.
  split; [by repeat split|].
  do 6 eexists.
  split; [rewrite send_call by (right; done); reflexivity|].
  split; [rewrite send_call by (right; done); reflexivity|].
  split; [reflexivity|discriminate].
Qed.

(** C4, as stated, fails when the failed send bypassed the cache and the
    request had an entry: the entry survives, and the next cached send
    answers from it with no network call.  Here the first send stores a
    response, the bypassing send fails, and the third send returns the
    stored response; the network was called twice, not three times. *)
Lemma failed_bypass_then_cached_send_makes_no_call :
  let r := problems_request 0 in
  exists old c1 sent1 e,
    RequestCache.send (stub 200) RequestCache.__init__ [] r true =
      (Ok old, c1, sent1) /\
    RequestCache.send unreachable c1 sent1 r false =
      (Raise e, c1, (sent1 ++ [r])%list) /\
    RequestCache.send (stub 200) c1 (sent1 ++ [r])%list r true =
      (Ok old, c1, (sent1 ++ [r])%list) /\
    length (sent1 ++ [r])%list = 2.
Proof.
  do 4 eexists.
  split; [rewrite send_call by (right; done); reflexivity|].
  split; [rewrite send_call by (left; done); reflexivity|].
  split; [|reflexivity].
  apply send_hit. reflexivity.
Qed.

(** C4, amended.  When a send reaches the network layer (a bypass, or a
    miss) and the network layer raises, the send raises that exception
    unchanged and the dictionary is what it was before the call: nothing
    is stored or overwritten.  That holds when preparing the request
    raises, with no call made, and when the call itself raises, the call
    being the only thing added to the log.  The next
    [send(r, use_cached=True)] goes to the network layer again when [r] had
    no entry before the failed send; when [r] had one (the failed send was
    a bypass), it returns that entry without a network call.  In neither
    case is the failure replayed from the cache. *)
Theorem send_failure_leaves_cache (net : transport) (c : RequestCache.t)
    (sent : list Request) (r : Request) (use_cached : bool) (e : exn) :
  use_cached = false \/ RequestCache.__contains__ c r = false ->
  (prepare_error net r = Some e ->
   RequestCache.send net c sent r use_cached = (Raise e, c, sent)) /\
  (prepare_error net r = None -> net sent r = Raise e ->
   RequestCache.send net c sent r use_cached =
     (Raise e, c, (sent ++ [r])%list)) /\
  forall (net2 : transport) (sent2 : list Request),
    RequestCache.send net2 c sent2 r true =
    match RequestCache.cache c !! dict_key r with
    | Some old => (Ok old, c, sent2)
    | None =>
        match prepare_error net2 r with
        | Some e2 => (Raise e2, c, sent2)
        | None =>
            match net2 sent2 r with
            | Ok resp =>
                (Ok resp,
                 RequestCache.mk
                   (<[dict_key r := resp]> (RequestCache.cache c)),
                 (sent2 ++ [r])%list)
            | Raise e2 => (Raise e2, c, (sent2 ++ [r])%list)
            end
        end
    end.
Proof.
  intros Hreach.
  assert (use_cached = false \/ RequestCache.cache c !! dict_key r = None)
    as Hcall.
  { destruct Hreach as [->|H]; [by left|]. right. by apply contains_false. }
  split; [|split].
  - intros Hprep. rewrite send_call by done. by rewrite Hprep.
  - intros Hprep Hnet. rewrite send_call by done. by rewrite Hprep, Hnet.
  - intros net2 sent2.
    destruct (RequestCache.cache c !! dict_key r) as [old|] eqn:Hc.
    + by apply send_hit.
    + by rewrite send_call by auto.
Qed.

Lemma send_failure_leaves_cache_witness :
  RequestCache.send unreachable RequestCache.__init__ []
    (problems_request 0) true =
  (Raise (mk_exn RequestException ["connection refused"]),
   RequestCache.__init__, [problems_request 0]).
Proof.
  exact (proj1 (proj2 (send_failure_leaves_cache unreachable
                         RequestCache.__init__ [] (problems_request 0) true _
                         (or_intror eq_refl)))
           eq_refl eq_refl).
Defined.

(** ** Configuration *)

Lemma split_at_percent_none (s : string) :
  has_percent s = false -> split_at_percent s = (s, None).
Proof.
  induction s as [|c t IH]; [done|]. simpl.
  destruct (Ascii.eqb c "%"); [done|]. simpl. intros H. by rewrite IH.
Qed.

(** A value without ["%"] is returned as it is. *)
Lemma before_get_plain (section option value : string)
    (d : gmap string string) :
  has_percent value = false -> before_get section option value d = Ok value.
Proof.
  intros H. unfold before_get, MAX_INTERPOLATION_DEPTH. cbn [_interpolate_some].
  destruct value as [|c t]; [done|].
  cbn [String.length interpolate_loop]. by rewrite split_at_percent_none.
Qed.

Lemma has_option_visible (cfg : ConfigParser) (section opt : string) :
  names_defaults section = false ->
  has_option cfg section opt = bool_decide (is_Some (visible cfg section opt)).
Proof.
  intros Hs. unfold has_option, visible. rewrite Hs.
  destruct (_sections cfg !! section) as [sd|]; [|done].
  rewrite lookup_union.
  destruct (sd !! optionxform opt), (_defaults cfg !! optionxform opt); done.
Qed.

Lemma cfg_get_visible (cfg : ConfigParser) (section opt : string)
    (sd : gmap string string) :
  _sections cfg !! section = Some sd ->
  cfg_get cfg section opt =
  match visible cfg section opt with
  | None => Raise (mk_exn NoOptionError [optionxform opt; section])
  | Some value =>
      before_get section (optionxform opt) value (sd ∪ _defaults cfg)
  end.
Proof. intros H. unfold cfg_get, _unify_values, visible. by rewrite H. Qed.

(** [get] returns a configured value without ["%"] as it is. *)
Lemma cfg_get_plain (cfg : ConfigParser) (section opt v : string) :
  visible cfg section opt = Some v -> has_percent v = false ->
  cfg_get cfg section opt = Ok v.
Proof.
  intros Hv Hp. pose proof Hv as Hv'. unfold visible in Hv'.
  destruct (_sections cfg !! section) as [sd|] eqn:Hs; [|done].
  rewrite (cfg_get_visible _ _ _ _ Hs), Hv. by apply before_get_plain.
Qed.

Lemma plain_visible (cfg : ConfigParser) (section opt v : string) :
  plain cfg -> visible cfg section opt = Some v -> has_percent v = false.
Proof.
  intros [Hd Hs]. unfold visible.
  destruct (_sections cfg !! section) as [sd|] eqn:Hsec; [|done].
  intros Hl. apply lookup_union_Some_raw in Hl as [Hl|[_ Hl]].
  - exact (Hs _ _ Hsec _ _ Hl).
  - exact (Hd _ _ Hl).
Qed.


(** The names returned are the supplied paths that parse, in order. *)
Lemma cfg_read_names (fs : filesystem) (paths : list Path) :
  forall (cfg cfg' : ConfigParser) (read_ok : list Path),
  cfg_read fs cfg paths = Ok (cfg', read_ok) ->
  read_ok = filter (fun p => readable fs p = true) paths.
Proof.
  induction paths as [|p paths IH]; intros cfg cfg' read_ok; simpl.
  { by intros [= _ <-]. }
  destruct (decide (readable fs p = true)) as [Hr|Hr].
  - rewrite filter_cons_True by done. unfold readable in Hr.
    destruct (fs p) as [| | |content]; try done.
    destruct (cfg_read fs (merge_file content cfg) paths) as [[c r]|] eqn:Hc;
      [|done].
    simpl. intros [= _ <-]. f_equal. by eapply IH.
  - rewrite filter_cons_False by done. unfold readable in Hr.
    destruct (fs p) as [| | |content]; try done; apply IH.
Qed.


Lemma cfg_read_app (fs : filesystem) (l1 l2 : list Path) :
  forall (cfg cfg2 : ConfigParser) (read_ok : list Path),
  cfg_read fs cfg (l1 ++ l2) = Ok (cfg2, read_ok) ->
  exists cfg1 r1 r2,
    cfg_read fs cfg l1 = Ok (cfg1, r1) /\
    cfg_read fs cfg1 l2 = Ok (cfg2, r2) /\ read_ok = (r1 ++ r2)%list.
Proof.
  induction l1 as [|p l1 IH]; intros cfg cfg2 read_ok; simpl.
  { intros H. exists cfg, [], read_ok. done. }
  destruct (fs p) as [| |k args|content]; try apply IH; [done|].
  destruct (cfg_read fs (merge_file content cfg) (l1 ++ l2)) as [[c r]|] eqn:Hc;
    [|done].
  simpl. intros [= <- <-].
  destruct (IH _ _ _ Hc) as (cfg1 & r1 & r2 & H1 & H2 & ->).
  rewrite H1. simpl. exists cfg1, (p :: r1), r2. done.
Qed.

(** [_read_config] in one piece: the default file is read first, whether
    [is_file] is tested or not, since a missing file is skipped. *)
Lemma read_config_unfold (fs : filesystem) (paths : list Path) :
  Kattis._read_config fs paths =
  match cfg_read fs ConfigParser_new (Kattis.DEFAULT_CONFIG :: paths) with
  | Raise e => Raise e
  | Ok (merged, _) =>
      match filter (fun p => readable fs p = true) paths with
      | [] => Raise (mk_exn ConfigError [])
      | _ :: _ =>
          if has_option merged "kattis" "hostname" then Ok merged
          else cfg_set merged "kattis" "hostname" "open.kattis.com"
      end
  end.
Proof.
  unfold Kattis._read_config, is_file. cbn [cfg_read].
  destruct (fs Kattis.DEFAULT_CONFIG) as [| |k args|content]; simpl.
  - destruct (cfg_read fs ConfigParser_new paths) as [[c r]|] eqn:Hc; [|done].
    simpl. rewrite <- (cfg_read_names _ _ _ _ _ Hc).
    destruct r; [done|]. by destruct (has_option c "kattis" "hostname").
  - destruct (cfg_read fs ConfigParser_new paths) as [[c r]|] eqn:Hc; [|done].
    simpl. rewrite <- (cfg_read_names _ _ _ _ _ Hc).
    destruct r; [done|]. by destruct (has_option c "kattis" "hostname").
  - done.
  - destruct (cfg_read fs (merge_file content ConfigParser_new) paths)
      as [[c r]|] eqn:Hc; [|done].
    simpl. rewrite <- (cfg_read_names _ _ _ _ _ Hc).
    destruct r; [done|]. by destruct (has_option c "kattis" "hostname").
Qed.




(** What loading returns: the options read, with the host name set in the
    [kattis] section when neither that section nor the defaults had one. *)
Lemma read_config_cases (fs : filesystem) (paths : list Path)
    (cfg : ConfigParser) :
  Kattis._read_config fs paths = Ok cfg ->
  exists merged read_ok,
    cfg_read fs ConfigParser_new (Kattis.DEFAULT_CONFIG :: paths) =
      Ok (merged, read_ok) /\
    ((has_option merged "kattis" "hostname" = true /\ cfg = merged) \/
     (has_option merged "kattis" "hostname" = false /\
      exists sd, _sections merged !! "kattis" = Some sd /\
        cfg = mk_ConfigParser (_defaults merged)
                (<["kattis" := <["hostname" := "open.kattis.com"]> sd]>
                   (_sections merged)))).
Proof.
  rewrite read_config_unfold.
  destruct (cfg_read fs ConfigParser_new (Kattis.DEFAULT_CONFIG :: paths))
    as [[merged r]|]; [|done].
  destruct (filter _ paths); [done|].
  destruct (has_option merged "kattis" "hostname") eqn:Hh.
  - intros [= <-]. eauto 10.
  - unfold cfg_set. cbn.
    destruct (_sections merged !! "kattis") as [sd|] eqn:Hs; [|done].
    intros [= <-]. exists merged, r. split; [done|]. right. eauto.
Qed.

(** A loaded configuration has a host name. *)
Lemma read_config_hostname (fs : filesystem) (paths : list Path)
    (cfg : ConfigParser) :
  Kattis._read_config fs paths = Ok cfg ->
  has_option cfg "kattis" "hostname" = true.
Proof.
  intros H. apply read_config_cases in H
    as (merged & r & _ & [[Hh ->]|[_ (sd & Hs & ->)]]); [done|].
  unfold has_option. cbn. rewrite lookup_insert_eq.
  change (optionxform "hostname") with "hostname".
  by rewrite lookup_insert_eq.
Qed.

(** [get_url] once the host name is known. *)
Lemma get_url_spec (self : Kattis.t) (opt default section : string)
    (hostname : option string) (h : string) :
  match hostname with
  | None => cfg_get (Kattis.config self) section "hostname"
  | Some h' => Ok h'
  end = Ok h ->
  Kattis.get_url self opt default section hostname =
  if has_option (Kattis.config self) section opt
  then cfg_get (Kattis.config self) section opt
  else Ok ("https://" ++ h ++ "/" ++ default).
Proof.
  intros H. unfold Kattis.get_url. rewrite H. simpl.
  unfold Kattis.get_cfg.
  destruct (has_option _ section opt); [|done].
  by destruct (cfg_get _ section opt).
Qed.




(** ** The session *)

(** Unfolding one step of a computation in [M]. *)
Lemma bind_unfold {A B : Type} (m : Kattis.M A) (f : A -> Kattis.M B)
    (p : Kattis.process) :
  (m ≫= f) p =
  match m p with
  | (Ok a, p') => f a p'
  | (Raise e, p') => (Raise e, p')
  end.
Proof. reflexivity. Qed.

(** Reading [self.cache] changes neither the configuration, nor the log,
    nor the allocator, and leaves a cache in place. *)
Lemma cache_spec (p : Kattis.process) :
  exists c p',
    Kattis.cache p = (Ok c, p') /\
    Kattis._cache (Kattis.session p') = Some c /\
    Kattis.config (Kattis.session p') = Kattis.config (Kattis.session p) /\
    Kattis.sent p' = Kattis.sent p /\ Kattis.next_id p' = Kattis.next_id p /\
    c = default RequestCache.__init__ (Kattis._cache (Kattis.session p)).
Proof.
  unfold Kattis.cache.
  destruct (Kattis._cache (Kattis.session p)) eqn:Hc; eauto 10.
Qed.

Lemma login_request_no_credentials (p : Kattis.process) :
  no_credentials (Kattis.config (Kattis.session p)) ->
  Kattis.login_request p = (Raise missing_credentials, p).
Proof.
  intros [Hpw Htk]. unfold Kattis.login_request.
  rewrite bind_unfold. unfold Kattis.lift at 1.
  unfold Kattis.password, Kattis.get_cfg at 1. rewrite Hpw.
  rewrite bind_unfold. unfold Kattis.lift at 1.
  unfold Kattis.token, Kattis.get_cfg at 1. rewrite Htk.
  reflexivity.
Qed.

(** C6. Without a password and without a token in the configuration,
    building the login request raises [ConfigError], and so does
    [login()], with nothing sent through the transport. *)
Theorem login_without_credentials (net : transport) (use_cached : bool)
    (p : Kattis.process) :
  no_credentials (Kattis.config (Kattis.session p)) ->
  Kattis.login_request p = (Raise missing_credentials, p) /\
  exists p',
    Kattis.login net use_cached p = (Raise missing_credentials, p') /\
    Kattis.sent p' = Kattis.sent p.
Proof.
  intros H. split; [by apply login_request_no_credentials|].
  destruct (cache_spec p) as (c & p' & Hc & _ & Hcfg & Hsent & _).
  exists p'. split; [|done].
  unfold Kattis.login, Kattis.send_login_request.
  rewrite !bind_unfold, Hc, bind_unfold.
  rewrite login_request_no_credentials; [done|]. by rewrite Hcfg.
Qed.

Lemma login_without_credentials_witness :
  exists p',
    Kattis.login (stub 200) true (start anonymous_config) =
      (Raise missing_credentials, p') /\
    Kattis.sent p' = [].
Proof.
  destruct (login_without_credentials (stub 200) true (start anonymous_config))
    as [_ (p' & H & Hs)]; [split; reflexivity|].
  exists p'. split; [exact H|exact Hs].
Defined.

(** C10. Without a password and without a token in the configuration,
    [logout()] raises [ConfigError]: it builds the login request in order
    to invalidate it.  Nothing goes through the transport. *)
Theorem logout_without_credentials (p : Kattis.process) :
  no_credentials (Kattis.config (Kattis.session p)) ->
  exists p',
    Kattis.logout p = (Raise missing_credentials, p') /\
    Kattis.sent p' = Kattis.sent p.
Proof.
  intros H.
  destruct (cache_spec p) as (c & p' & Hc & _ & Hcfg & Hsent & _).
  exists p'. split; [|done].
  unfold Kattis.logout. rewrite !bind_unfold, Hc, bind_unfold.
  rewrite login_request_no_credentials; [done|]. by rewrite Hcfg.
Qed.

Lemma logout_without_credentials_witness :
  exists p',
    Kattis.logout (start anonymous_config) = (Raise missing_credentials, p') /\
    Kattis.sent p' = [].
Proof.
  destruct (logout_without_credentials (start anonymous_config))
    as (p' & H & Hs); [split; reflexivity|].
  exists p'. split; [exact H|exact Hs].
Defined.

(** A login request that is built is a new object; building it reads the
    user name and the login URL and leaves the session as it is. *)
Lemma login_request_ok (p : Kattis.process) (req : Request)
    (p' : Kattis.process) :
  Kattis.login_request p = (Ok req, p') ->
  p' = Kattis.mk_process (Kattis.session p) (Kattis.sent p)
         (S (Kattis.next_id p)) /\
  req_id req = Kattis.next_id p /\
  exists user url,
    Kattis.username (Kattis.session p) = Ok user /\
    Kattis.login_url (Kattis.session p) = Ok url.
Proof.
  unfold Kattis.login_request, Kattis.lift, Kattis.raise, Kattis.Request_new.
  unfold mbind, Kattis.M_bind.
  destruct (Kattis.password (Kattis.session p)) as [pw|] eqn:Hpw; [|done].
  destruct (Kattis.token (Kattis.session p)) as [tk|] eqn:Htk; [|done].
  destruct (bool_decide (pw = None) && bool_decide (tk = None)); [done|].
  cbv beta. rewrite Hpw, Htk.
  destruct (Kattis.username (Kattis.session p)) as [user|]; [|done].
  destruct (Kattis.login_url (Kattis.session p)) as [url|]; [|done].
  intros [= <- <-]. eauto 10.
Qed.

(** A [send] on [self.cache], spelled out. *)
Lemma cache_call_send (net : transport) (req : Request) (use_cached : bool)
    (p : Kattis.process) :
  Kattis.cache_call
    (fun c sent => RequestCache.send net c sent req use_cached) p =
  let c := default RequestCache.__init__ (Kattis._cache (Kattis.session p)) in
  let '(r, c', sent') := RequestCache.send net c (Kattis.sent p) req use_cached in
  (r, Kattis.mk_process (Kattis.mk (Kattis.config (Kattis.session p)) (Some c'))
        sent' (Kattis.next_id p)).
Proof.
  unfold Kattis.cache_call. rewrite bind_unfold. unfold Kattis.cache.
  destruct p as [[cfg [c|]] sent n]; reflexivity.
Qed.

(** Sending the login request keeps the configuration. *)
Lemma send_login_request_ok (net : transport) (use_cached : bool)
    (p : Kattis.process) (resp : Response) (p' : Kattis.process) :
  Kattis.send_login_request net use_cached p = (Ok resp, p') ->
  Kattis.config (Kattis.session p') = Kattis.config (Kattis.session p) /\
  exists user url,
    Kattis.username (Kattis.session p) = Ok user /\
    Kattis.login_url (Kattis.session p) = Ok url.
Proof.
  unfold Kattis.send_login_request. rewrite bind_unfold.
  destruct (cache_spec p) as (c & p1 & -> & _ & Hcfg & _).
  rewrite bind_unfold.
  destruct (Kattis.login_request p1) as [[req|e] p2] eqn:Hreq; [|done].
  apply login_request_ok in Hreq as (-> & _ & user & url & Hu & Hl).
  rewrite cache_call_send. simpl.
  destruct (RequestCache.send _ _ _ _ _) as [[r c'] sent'].
  intros [= -> <-]. simpl. split; [done|].
  exists user, url. split.
  - unfold Kattis.username in *. by rewrite <- Hcfg.
  - unfold Kattis.login_url, Kattis.get_url, Kattis.get_cfg in *.
    by rewrite <- Hcfg.
Qed.

(** C3, as stated, fails on the error types: the three failures are all
    raised as the built-in [Exception], so their classes coincide. *)
Lemma login_failures_share_one_class :
  exists e403 e404 e500 p1 p2 p3,
    Kattis.login (stub 403) true (start alice_config) = (Raise e403, p1) /\
    Kattis.login (stub 404) true (start alice_config) = (Raise e404, p2) /\
    Kattis.login (stub 500) true (start alice_config) = (Raise e500, p3) /\
    exn_type e403 = Exception /\
    exn_type e404 = exn_type e403 /\
    exn_type e500 = exn_type e403.
Proof.
  do 6 eexists. repeat split; reflexivity.
Qed.

(** C3, amended.  [login()] classifies the status of the response to the
    login request: 403 raises [Exception] with the message
    ["403: bad credentials for <user>"]; 404 raises [Exception] with
    ["404: incorrect login URL <login url>"]; any other status but 200
    raises [Exception] with ["login failed with status <code>"]; 200
    returns the response.  The failures differ in their message, not in
    their class. *)
Theorem login_classifies_status (net : transport) (use_cached : bool)
    (p : Kattis.process) (resp : Response) (p' : Kattis.process) :
  Kattis.send_login_request net use_cached p = (Ok resp, p') ->
  exists user url,
    Kattis.username (Kattis.session p) = Ok user /\
    Kattis.login_url (Kattis.session p) = Ok url /\
    Kattis.login net use_cached p =
    (if (status_code resp =? 403)%Z then
       Raise (mk_exn Exception ["403: bad credentials for " ++ user])
     else if (status_code resp =? 404)%Z then
       Raise (mk_exn Exception ["404: incorrect login URL " ++ url])
     else if negb (status_code resp =? 200)%Z then
       Raise (mk_exn Exception
                ["login failed with status " ++ str_int (status_code resp)])
     else Ok resp, p').
Proof.
  intros H.
  destruct (send_login_request_ok _ _ _ _ _ H) as (Hcfg & user & url & Hu & Hl).
  exists user, url. do 2 (split; [done|]).
  assert (Kattis.username (Kattis.session p') = Ok user) as Hu'.
  { unfold Kattis.username in *. by rewrite Hcfg. }
  assert (Kattis.login_url (Kattis.session p') = Ok url) as Hl'.
  { unfold Kattis.login_url, Kattis.get_url, Kattis.get_cfg in *.
    by rewrite Hcfg. }
  unfold Kattis.login. rewrite bind_unfold, H.
  destruct (status_code resp =? 403)%Z.
  { rewrite bind_unfold. unfold Kattis.lift. by rewrite Hu'. }
  destruct (status_code resp =? 404)%Z.
  { rewrite bind_unfold. unfold Kattis.lift. by rewrite Hl'. }
  by destruct (status_code resp =? 200)%Z.
Qed.

Lemma login_classifies_status_witness :
  exists p',
    Kattis.login (stub 500) true (start alice_config) =
      (Raise (mk_exn Exception ["login failed with status 500"]), p').
Proof.
  eexists.
  destruct (login_classifies_status (stub 500) true (start alice_config)
              _ _ eq_refl) as (user & url & _ & _ & H).
  exact H.
Defined.

(** [is_logged_in()] looks a newly built login request up in the cache. *)
Lemma is_logged_in_spec (p : Kattis.process) (req : Request)
    (p1 : Kattis.process) :
  Kattis.login_request p = (Ok req, p1) ->
  exists p',
    Kattis.is_logged_in p =
      (Ok (RequestCache.__contains__
             (default RequestCache.__init__ (Kattis._cache (Kattis.session p)))
             req), p') /\
    Kattis.sent p' = Kattis.sent p.
Proof.
  intros H. unfold Kattis.is_logged_in. rewrite bind_unfold, H.
  apply login_request_ok in H as (-> & _).
  unfold Kattis.cache_call. rewrite bind_unfold. unfold Kattis.cache.
  destruct p as [[cfg [c|]] sent n]; simpl; eauto.
Qed.

(** [is_logged_in()] never answers [True]: the request it looks up was
    allocated for the lookup, and no key of the cache is that object. *)
Lemma is_logged_in_never_true (p : Kattis.process) (b : bool)
    (p' : Kattis.process) :
  allocated p ->
  Kattis.is_logged_in p = (Ok b, p') -> b = false.
Proof.
  intros Halloc H.
  destruct (Kattis.login_request p) as [[req|e] p1] eqn:Hreq.
  - destruct (is_logged_in_spec _ _ _ Hreq) as (p2 & H2 & _).
    rewrite H2 in H. injection H as <- _.
    apply login_request_ok in Hreq as (_ & Hid & _).
    apply contains_false. unfold dict_key. rewrite Hid.
    destruct (Kattis._cache (Kattis.session p)) as [c|] eqn:Hc; [|done].
    simpl. destruct (RequestCache.cache c !! Kattis.next_id p) eqn:Hk; [|done].
    specialize (Halloc _ _ _ Hc Hk). lia.
  - unfold Kattis.is_logged_in in H. rewrite bind_unfold, Hreq in H. done.
Qed.

(** A login that returns went through the network, cached or not, and
    keeps the keys of the cache allocated. *)
Lemma login_always_calls_network (net : transport) (use_cached : bool)
    (p : Kattis.process) (resp : Response) (p' : Kattis.process) :
  allocated p ->
  Kattis.login net use_cached p = (Ok resp, p') ->
  length (Kattis.sent p') = S (length (Kattis.sent p)) /\ allocated p'.
Proof.
  intros Halloc H. unfold Kattis.login in H. rewrite bind_unfold in H.
  destruct (Kattis.send_login_request net use_cached p) as [[r|e] p1] eqn:Hs;
    [|done].
  assert (p' = p1) as ->.
  { destruct (status_code r =? 403)%Z.
    { rewrite bind_unfold in H. unfold Kattis.lift, Kattis.raise in H.
      by destruct (Kattis.username _). }
    destruct (status_code r =? 404)%Z.
    { rewrite bind_unfold in H. unfold Kattis.lift, Kattis.raise in H.
      by destruct (Kattis.login_url _). }
    destruct (status_code r =? 200)%Z; simpl in H; [|done].
    by injection H. }
  clear H. unfold Kattis.send_login_request in Hs.
  rewrite bind_unfold in Hs.
  destruct (cache_spec p) as (c & p0 & Hc & Hc0 & _ & Hsent & Hnext & Hdef).
  rewrite Hc, bind_unfold in Hs.
  destruct (Kattis.login_request p0) as [[req|e] p2] eqn:Hreq; [|done].
  apply login_request_ok in Hreq as (-> & Hid & _).
  rewrite cache_call_send in Hs. simpl in Hs. rewrite Hc0 in Hs. simpl in Hs.
  assert (RequestCache.cache c !! dict_key req = None) as Hmiss.
  { unfold dict_key. rewrite Hid, Hnext.
    destruct (RequestCache.cache c !! Kattis.next_id p) eqn:Hk; [|done].
    subst c. destruct (Kattis._cache (Kattis.session p)) as [c|] eqn:Hp;
      [|done].
    specialize (Halloc _ _ _ Hp Hk). lia. }
  rewrite send_call in Hs by auto.
  destruct (prepare_error net req); [done|].
  destruct (net (Kattis.sent p0) req) as [resp0|]; [|done].
  injection Hs as -> <-. simpl. split.
  { rewrite length_app, Hsent. simpl. lia. }
  intros c1 k r1 [= <-]. simpl. rewrite Hnext.
  unfold dict_key. rewrite Hid, Hnext.
  destruct (decide (Kattis.next_id p = k)) as [<-|Hne].
  - intros _. lia.
  - rewrite lookup_insert_ne by done. intros Hk.
    subst c. destruct (Kattis._cache (Kattis.session p)) as [c|] eqn:Hp;
      [|done].
    specialize (Halloc _ _ _ Hp Hk). lia.
Qed.

(** C2, at a failing input.  A session with a user name and a password,
    over a transport that answers 200 with a new response object each
    time.  [login()] succeeds, and [is_logged_in()] then returns [False]:
    the login request it looks up is a new object, and the cache files
    requests by identity.  After [logout()] the first access to [cookies]
    calls the network, and so does the second. *)
Theorem login_then_is_logged_in_false :
  exists resp p1 p2 p3 ck1 p4 ck2 p5,
    Kattis.login (stub 200) true (start alice_config) = (Ok resp, p1) /\
    status_code resp = 200%Z /\
    Kattis.is_logged_in p1 = (Ok false, p2) /\
    Kattis.logout p2 = (Ok (), p3) /\
    Kattis.cookies (stub 200) p3 = (Ok ck1, p4) /\
    Kattis.cookies (stub 200) p4 = (Ok ck2, p5) /\
    length (Kattis.sent p1) = 1 /\ length (Kattis.sent p3) = 1 /\
    length (Kattis.sent p4) = 2 /\ length (Kattis.sent p5) = 3.
Proof.
  pose (x1 := Kattis.login (stub 200) true (start alice_config)).
  pose (x2 := Kattis.is_logged_in x1.2).
  pose (x3 := Kattis.logout x2.2).
  pose (x4 := Kattis.cookies (stub 200) x3.2).
  pose (x5 := Kattis.cookies (stub 200) x4.2).
  exists (mk_Response 0 200 ∅), x1.2, x2.2, x3.2, ∅, x4.2, ∅, x5.2.
  repeat split;
    try (apply injective_projections; [vm_compute; reflexivity|reflexivity]);
    vm_compute; reflexivity.
Qed.

(** * Further properties *)

(** ** The cache: bypass, invalidation, hits *)

(** X1. [send(r, use_cached=False)] never answers from the cache: whatever
    the dictionary holds, the request is prepared and, unless preparing it
    raises, sent in exactly one network call.  An answer is returned and
    replaces whatever the dictionary held for [r], every other entry
    staying as it was; an exception, from preparing the request or from
    the transport, is raised unchanged and leaves the dictionary as it
    was. *)
Theorem send_bypass_refreshes (net : transport) (c : RequestCache.t)
    (sent : list Request) (r : Request) :
  let '(out, c', sent') := RequestCache.send net c sent r false in
  match prepare_error net r with
  | Some e => out = Raise e /\ c' = c /\ sent' = sent
  | None =>
      sent' = (sent ++ [r])%list /\
      match net sent r with
      | Raise e => out = Raise e /\ c' = c
      | Ok resp =>
          out = Ok resp /\
          RequestCache.cache c' !! dict_key r = Some resp /\
          forall k, k <> dict_key r ->
            RequestCache.cache c' !! k = RequestCache.cache c !! k
      end
  end.
Proof.
  rewrite send_call by auto.
  destruct (prepare_error net r); [done|].
  destruct (net sent r) as [resp|e]; [|done].
  split; [done|]. split; [done|]. simpl. split; [apply lookup_insert_eq|].
  intros k Hk. by rewrite lookup_insert_ne.
Qed.

Lemma send_bypass_refreshes_witness :
  let old := mk_Response 7 200 ∅ in
  let c := RequestCache.mk {[0 := old]} in
  RequestCache.cache
    (RequestCache.send (stub 200) c [] (problems_request 0) false).1.2 !! 0 =
  Some (mk_Response 0 200 ∅).
Proof.
  intros old c.
  pose proof (send_bypass_refreshes (stub 200) c [] (problems_request 0)) as H.
  destruct (RequestCache.send (stub 200) c [] (problems_request 0) false)
    as [[out c'] sent'].
  exact (proj1 (proj2 (proj2 H))).
Defined.

(** X2. After [invalidate(r)] the cache does not contain [r], every other
    entry is as before, and the next [send(r, use_cached=True)] goes to the
    network layer: the request is prepared and, unless preparing it
    raises, sent, and the outcome is the transport's.  Invalidating a
    request that has no entry changes nothing. *)
Theorem invalidate_then_send (net : transport) (c : RequestCache.t)
    (sent : list Request) (r : Request) :
  let c' := RequestCache.invalidate c r in
  RequestCache.__contains__ c' r = false /\
  (forall k, k <> dict_key r ->
     RequestCache.cache c' !! k = RequestCache.cache c !! k) /\
  (RequestCache.__contains__ c r = false -> c' = c) /\
  RequestCache.send net c' sent r true =
    match prepare_error net r with
    | Some e => (Raise e, c', sent)
    | None =>
        match net sent r with
        | Ok resp =>
            (Ok resp,
             RequestCache.mk (<[dict_key r := resp]> (RequestCache.cache c)),
             (sent ++ [r])%list)
        | Raise e => (Raise e, c', (sent ++ [r])%list)
        end
    end.
Proof.
  intros c'.
  assert (RequestCache.cache c' !! dict_key r = None) as Hnone
    by apply lookup_delete_eq.
  split; [by apply contains_false|].
  split; [intros k Hk; apply lookup_delete_ne; congruence|].
  split.
  - intros H. apply contains_false in H. subst c'.
    destruct c as [m]. unfold RequestCache.invalidate. simpl in *.
    f_equal. by apply delete_id.
  - rewrite send_call by auto. destruct (prepare_error net r); [done|].
    destruct (net sent r); [|done].
    do 2 f_equal. subst c'. simpl. by rewrite insert_delete_eq.
Qed.

Lemma invalidate_then_send_witness :
  let c := RequestCache.mk {[1 := mk_Response 7 200 ∅]} in
  RequestCache.__contains__ c (problems_request 0) = false /\
  RequestCache.invalidate c (problems_request 0) = c.
Proof.
  intros c. split; [reflexivity|].
  exact (proj1 (proj2 (proj2 (invalidate_then_send (stub 200) c []
                                 (problems_request 0)))) eq_refl).
Defined.

(** X3. Once a send of a request object has returned a response, every
    further [send] of that object with [use_cached=True] returns the same
    response, calls nothing and changes nothing. *)
Theorem send_again_hits (net net2 : transport) (c : RequestCache.t)
    (sent : list Request) (r : Request) (use_cached : bool)
    (resp : Response) (c1 : RequestCache.t) (sent1 : list Request) :
  RequestCache.send net c sent r use_cached = (Ok resp, c1, sent1) ->
  RequestCache.__contains__ c1 r = true /\
  RequestCache.send net2 c1 sent1 r true = (Ok resp, c1, sent1).
Proof.
  intros H.
  pose proof (send_same_object _ _ _ _ _ _ _ _ H) as H1.
  assert (RequestCache.cache c1 !! dict_key r = Some resp) as Hc.
  { destruct (RequestCache.cache c1 !! dict_key r) as [x|] eqn:Hx.
    - rewrite (send_hit _ _ _ _ _ Hx) in H1. by simplify_eq.
    - rewrite send_call in H1 by auto.
      destruct (prepare_error net r); [simplify_eq|].
      destruct (net sent1 r); simplify_eq.
      apply (f_equal length) in H1. rewrite length_app in H1. simpl in H1.
      lia. }
  split; [apply contains_true; eauto|by apply send_hit].
Qed.

Lemma send_again_hits_witness :
  exists c1,
    RequestCache.send (stub 200) RequestCache.__init__ []
      (problems_request 0) true =
      (Ok (mk_Response 0 200 ∅), c1, [problems_request 0]) /\
    RequestCache.send unreachable c1 [problems_request 0]
      (problems_request 0) true =
      (Ok (mk_Response 0 200 ∅), c1, [problems_request 0]).
Proof.
  eexists. split; [reflexivity|].
  exact (proj2 (send_again_hits (stub 200) unreachable RequestCache.__init__ []
                  (problems_request 0) true _ _ _ eq_refl)).
Defined.

(** ** The cache over sequences of operations *)

Lemma step_log (net : transport) (c : RequestCache.t) (sent : list Request)
    (op : cache_op) :
  exists more,
    (RequestCache_step net (c, sent) op).2.2 = (sent ++ more)%list /\
    length more <= count_sends [op].
Proof.
  destruct op as [r|r|r uc]; simpl.
  - exists []. by rewrite app_nil_r.
  - exists []. by rewrite app_nil_r.
  - unfold RequestCache.send, requests_session_send, Session_send.
    destruct (negb uc || _).
    + destruct (prepare_error net r).
      * exists []. rewrite app_nil_r. split; [done|simpl; lia].
      * exists [r]. by destruct (net sent r).
    + exists []. rewrite app_nil_r. split; [done|simpl; lia].
Qed.

(** X4. A sequence of cache operations only ever appends to the log of
    network calls, makes at most one call per [send], and answers every
    operation. *)
Theorem run_log_append_only (net : transport) (ops : list cache_op)
    (c : RequestCache.t) (sent : list Request) :
  exists more,
    (run (RequestCache_step net) (c, sent) ops).2.2 = (sent ++ more)%list /\
    length more <= count_sends ops /\
    length (run (RequestCache_step net) (c, sent) ops).1 = length ops.
Proof.
  revert c sent. induction ops as [|op ops IH]; intros c sent.
  { exists []. by rewrite app_nil_r. }
  cbn [run].
  destruct (step_log net c sent op) as (m1 & H1 & L1).
  destruct (RequestCache_step net (c, sent) op) as [o [c1 s1]].
  simpl in H1. subst s1.
  destruct (IH c1 (sent ++ m1)%list) as (m2 & H2 & L2 & L3).
  destruct (run (RequestCache_step net) (c1, (sent ++ m1)%list) ops)
    as [os [c2 s2]].
  simpl in *. exists (m1 ++ m2)%list.
  split; [by rewrite app_assoc|].
  split; [|by rewrite L3].
  rewrite length_app. destruct op; simpl in *; lia.
Qed.

Lemma step_cached_from_transport (net : transport) (c : RequestCache.t)
    (sent : list Request) (op : cache_op) :
  cached_from_transport net (RequestCache.cache c) sent ->
  let st := (RequestCache_step net (c, sent) op).2 in
  cached_from_transport net (RequestCache.cache st.1) st.2.
Proof.
  intros Hinv. destruct op as [r|r|r uc]; simpl.
  - done.
  - intros k resp Hk.
    apply lookup_delete_Some in Hk as [_ Hk]. eauto.
  - unfold RequestCache.send, requests_session_send, Session_send.
    destruct (negb uc || _); [|done].
    destruct (prepare_error net r); [done|].
    destruct (net sent r) as [resp0|e] eqn:Hnet; simpl.
    + intros k resp Hk.
      destruct (decide (dict_key r = k)) as [<-|Hne].
      * rewrite lookup_insert_eq in Hk. injection Hk as <-.
        exists sent, r, []. done.
      * rewrite lookup_insert_ne in Hk by done.
        destruct (Hinv _ _ Hk) as (pre & r0 & post & -> & ? & ?).
        exists pre, r0, (post ++ [r])%list.
        by rewrite <- app_assoc.
    + intros k resp Hk.
      destruct (Hinv _ _ Hk) as (pre & r0 & post & -> & ? & ?).
      exists pre, r0, (post ++ [r])%list.
      by rewrite <- app_assoc.
Qed.

Lemma run_cached_from_transport (net : transport) (ops : list cache_op) :
  forall c sent,
  cached_from_transport net (RequestCache.cache c) sent ->
  let st := (run (RequestCache_step net) (c, sent) ops).2 in
  cached_from_transport net (RequestCache.cache st.1) st.2.
Proof.
  induction ops as [|op ops IH]; intros c sent Hinv; [done|].
  cbn [run].
  pose proof (step_cached_from_transport net c sent op Hinv) as H1.
  destruct (RequestCache_step net (c, sent) op) as [o [c1 s1]].
  specialize (IH c1 s1 H1).
  destruct (run (RequestCache_step net) (c1, s1) ops) as [os [c2 s2]].
  done.
Qed.

(** X5. Whatever sequence of operations is run on a new [RequestCache],
    every response it holds afterwards is the answer the transport gave to
    a logged network call for the request object it is stored under: the
    cache never holds a response that did not come from the transport, nor
    one filed under a request that was not sent. *)
Theorem RequestCache_holds_transport_answers (net : transport)
    (ops : list cache_op) :
  let st := (run (RequestCache_step net) (RequestCache.__init__, []) ops).2 in
  cached_from_transport net (RequestCache.cache st.1) st.2.
Proof.
  apply run_cached_from_transport. intros k resp Hk. done.
Qed.

(** X6. The same holds of [ResponseCache]. *)
Theorem ResponseCache_holds_transport_answers (net : transport)
    (ops : list cache_op) :
  let st := (run (ResponseCache_step net) (ResponseCache.__init__, []) ops).2 in
  cached_from_transport net (ResponseCache.cache st.1) st.2.
Proof.
  assert (cached_from_transport net
            (RequestCache.cache RequestCache.__init__) []) as H0
    by (intros k resp Hk; done).
  pose proof (run_cached_from_transport net ops RequestCache.__init__ [] H0)
    as H.
  pose proof (run_same_cache net ops RequestCache.__init__
                ResponseCache.__init__ [] eq_refl) as Hsim.
  destruct (run (RequestCache_step net) (RequestCache.__init__, []) ops)
    as [o1 [c1 s1]].
  destruct (run (ResponseCache_step net) (ResponseCache.__init__, []) ops)
    as [o2 [c2 s2]].
  destruct Hsim as (_ & Hc & ->). simpl in *. by rewrite <- Hc.
Qed.

(** ** Entities: the order and the derived operators *)

Lemma ltb_lt (a b : string) :
  String.ltb a b = true <-> OrderedTypeEx.String_as_OT.lt a b.
Proof.
  rewrite <- OrderedTypeEx.String_as_OT.cmp_lt.
  unfold String.ltb, OrderedTypeEx.String_as_OT.cmp.
  destruct (String.compare a b); split; congruence.
Qed.

Lemma ltb_trans (a b c : string) :
  String.ltb a b = true -> String.ltb b c = true -> String.ltb a c = true.
Proof. rewrite !ltb_lt. apply OrderedTypeEx.String_as_OT.lt_trans. Qed.

Lemma ltb_irrefl (a : string) : String.ltb a a = false.
Proof.
  unfold String.ltb. pose proof (String.compare_antisym a a) as H.
  destruct (String.compare a a); simpl in H; congruence.
Qed.

(** [b < a] exactly when neither [a < b] nor [a = b]. *)
Lemma ltb_flip (a b : string) :
  String.ltb b a = negb (String.ltb a b) && negb (String.eqb a b).
Proof.
  unfold String.ltb. rewrite (String.compare_antisym b a).
  destruct (String.compare a b) eqn:H; simpl.
  - apply String.compare_eq_iff in H as ->. by rewrite String.eqb_refl.
  - destruct (String.eqb_spec a b) as [->|]; [|done].
    pose proof (ltb_irrefl b) as Hi. unfold String.ltb in Hi.
    by rewrite H in Hi.
  - destruct (String.eqb_spec a b) as [->|]; [|done].
    pose proof (String.compare_antisym b b) as Hi. rewrite H in Hi. done.
Qed.

Lemma kind_decide_sym (a b : entity) :
  bool_decide (kind_of b = kind_of a) = bool_decide (kind_of a = kind_of b).
Proof. apply bool_decide_ext. split; congruence. Qed.

(** X7. Among entities of one kind [<] is a strict total order: no entity
    is below itself, the order is transitive, and of [a < b], [a == b] and
    [b < a] exactly one holds. *)
Theorem entity_order_strict_total (a b c : entity) :
  kind_of a = kind_of b -> kind_of b = kind_of c ->
  py_lt a (to_object a) = Ok false /\
  (py_lt a (to_object b) = Ok true -> py_lt b (to_object c) = Ok true ->
   py_lt a (to_object c) = Ok true) /\
  ((py_lt a (to_object b) = Ok true /\ py_eq a (to_object b) = false /\
    py_lt b (to_object a) = Ok false) \/
   (py_lt a (to_object b) = Ok false /\ py_eq a (to_object b) = true /\
    py_lt b (to_object a) = Ok false) \/
   (py_lt a (to_object b) = Ok false /\ py_eq a (to_object b) = false /\
    py_lt b (to_object a) = Ok true)).
Proof.
  intros Hab Hbc. rewrite !entity_lt_spec, entity_eq_spec.
  rewrite !bool_decide_eq_true_2 by congruence. simpl.
  split; [by rewrite ltb_irrefl|].
  split.
  { intros [= H1] [= H2]. by rewrite (ltb_trans _ _ _ H1 H2). }
  rewrite (ltb_flip (identifier a) (identifier b)).
  destruct (String.ltb (identifier a) (identifier b)) eqn:Hlt; simpl.
  - left. split; [done|]. split; [|done].
    destruct (String.eqb_spec (identifier a) (identifier b)) as [He|]; [|done].
    rewrite He, ltb_irrefl in Hlt. done.
  - destruct (String.eqb (identifier a) (identifier b)); simpl; auto.
Qed.

Lemma entity_order_strict_total_witness :
  let a := EUser (User.__init__ 0 "ada") in
  let b := EUser (User.__init__ 0 "bob") in
  let c := EUser (User.__init__ 1 "cy") in
  py_lt a (to_object b) = Ok true /\ py_lt b (to_object c) = Ok true /\
  py_lt a (to_object c) = Ok true.
Proof.
  intros a b c. split; [reflexivity|]. split; [reflexivity|].
  exact (proj1 (proj2 (entity_order_strict_total a b c eq_refl eq_refl))
           eq_refl eq_refl).
Defined.

(** X8. The operators that [total_ordering] derives agree with [<] on all
    entities, of one kind or not: [a > b] is [b < a], [a >= b] is
    [b <= a], [a <= b] is the negation of [a > b] and [a >= b] the
    negation of [a < b]; where one side raises [TypeError], so does the
    other. *)
Theorem entity_derived_operators (a b : entity) :
  py_gt a (to_object b) = py_lt b (to_object a) /\
  py_ge a (to_object b) = py_le b (to_object a) /\
  py_le a (to_object b) = negb <$> py_gt a (to_object b) /\
  py_ge a (to_object b) = negb <$> py_lt a (to_object b).
Proof.
  rewrite !entity_gt_spec, !entity_ge_spec, !entity_le_spec, !entity_lt_spec.
  rewrite (kind_decide_sym a b).
  destruct (bool_decide (kind_of a = kind_of b)); [|done].
  rewrite (ltb_flip (identifier a) (identifier b)).
  rewrite (String.eqb_sym (identifier b) (identifier a)).
  simpl.
  destruct (String.eqb_spec (identifier a) (identifier b)) as [He|Hne].
  - rewrite He, ltb_irrefl. done.
  - by destruct (String.ltb (identifier a) (identifier b)).
Qed.

(** X9. Entities that compare equal are interchangeable: they hash alike,
    equality is symmetric, and whatever one equals or is below, the other
    equals or is below.  The session an entity refers to is immaterial. *)
Theorem entity_equal_interchangeable (hash : string -> Z) (a b : entity) :
  py_eq a (to_object b) = true ->
  py_hash hash a = py_hash hash b /\
  py_eq b (to_object a) = true /\
  (forall c : entity,
     py_eq a (to_object c) = py_eq b (to_object c) /\
     py_lt a (to_object c) = py_lt b (to_object c) /\
     py_lt c (to_object a) = py_lt c (to_object b)).
Proof.
  rewrite entity_eq_spec. intros H.
  apply andb_true_iff in H as [Hk Hi].
  apply bool_decide_eq_true in Hk. apply String.eqb_eq in Hi.
  split.
  { destruct a, b; try discriminate Hk; cbv [identifier to_object str] in Hi;
      cbv [py_hash];
      unfold Contest.__hash__, Submission.__hash__, Problem.__hash__,
        User.__hash__, Contest.__str__, Submission.__str__, Problem.__str__,
        User.__str__; congruence. }
  split.
  { rewrite entity_eq_spec, <- Hi, String.eqb_refl.
    by rewrite bool_decide_eq_true_2. }
  intros c. rewrite !entity_eq_spec, !entity_lt_spec, Hk, Hi. done.
Qed.

Lemma entity_equal_interchangeable_witness :
  let a := EProblem (Problem.__init__ 0 "hello") in
  let b := EProblem (Problem.__init__ 1 "hello") in
  a <> b /\ py_eq a (to_object b) = true /\
  py_hash (fun s => Z.of_nat (String.length s)) a =
  py_hash (fun s => Z.of_nat (String.length s)) b.
Proof.
  intros a b. split; [discriminate|]. split; [reflexivity|].
  exact (proj1 (entity_equal_interchangeable
                  (fun s => Z.of_nat (String.length s)) a b eq_refl)).
Defined.

(** X10. An entity is not equal to a string or to [None], not even to its
    own identifier, and each of the four ordering operators [<], [<=], [>]
    and [>=] raises [TypeError] with a string and with [None] as the other
    operand. *)
Theorem entity_against_other_objects (a : entity) (s : string) :
  py_eq a (OStr s) = false /\ py_eq a ONone = false /\
  py_lt a (OStr s) = Raise (mk_exn TypeError []) /\
  py_le a (OStr s) = Raise (mk_exn TypeError []) /\
  py_gt a (OStr s) = Raise (mk_exn TypeError []) /\
  py_ge a (OStr s) = Raise (mk_exn TypeError []) /\
  py_lt a ONone = Raise (mk_exn TypeError []) /\
  py_le a ONone = Raise (mk_exn TypeError []) /\
  py_gt a ONone = Raise (mk_exn TypeError []) /\
  py_ge a ONone = Raise (mk_exn TypeError []).
Proof. destruct a; repeat split; reflexivity. Qed.

(** ** Loading the configuration *)


(** An option of the file read replaces the one read before. *)
Lemma merge_file_lookup (content cfg : ConfigParser) (section opt : string) :
  opt_lookup (merge_file content cfg) section opt =
  match opt_lookup content section opt with
  | Some v => Some v
  | None => opt_lookup cfg section opt
  end.
Proof.
  unfold opt_lookup, merge_file. cbn [_sections]. rewrite lookup_union_with.
  destruct (_sections content !! section) as [new|],
    (_sections cfg !! section) as [old|]; simpl; try done.
  - rewrite lookup_union. by destruct (new !! opt), (old !! opt).
  - by destruct (new !! opt).
Qed.

Lemma merge_file_default (content cfg : ConfigParser) (opt : string) :
  _defaults (merge_file content cfg) !! opt =
  match _defaults content !! opt with
  | Some v => Some v
  | None => _defaults cfg !! opt
  end.
Proof.
  unfold merge_file. cbn [_defaults]. rewrite lookup_union.
  by destruct (_defaults content !! opt), (_defaults cfg !! opt).
Qed.


(** Files that do not set an option leave it as it was. *)
Lemma cfg_read_keeps (fs : filesystem) (section opt : string)
    (paths : list Path) :
  forall (cfg merged : ConfigParser) (read_ok : list Path),
  Forall (fun p => defines fs section opt p = false) paths ->
  cfg_read fs cfg paths = Ok (merged, read_ok) ->
  opt_lookup merged section opt = opt_lookup cfg section opt.
Proof.
  induction paths as [|p paths IH]; intros cfg merged read_ok H; simpl.
  { by intros [= <- _]. }
  inversion H as [|? ? Hp Hrest]; subst.
  unfold defines in Hp.
  destruct (fs p) as [| |k args|content]; try (by apply IH); [done|].
  destruct (cfg_read fs (merge_file content cfg) paths) as [[c r]|] eqn:Hc;
    [|done].
  simpl. intros [= <- _]. rewrite (IH _ _ _ Hrest Hc), merge_file_lookup.
  apply bool_decide_eq_false in Hp.
  destruct (opt_lookup content section opt); [|done].
  exfalso. apply Hp. eauto.
Qed.

(** Files that do not set a default leave it as it was. *)
Lemma cfg_read_keeps_default (fs : filesystem) (opt : string)
    (paths : list Path) :
  forall (cfg merged : ConfigParser) (read_ok : list Path),
  Forall (fun p => defines_default fs opt p = false) paths ->
  cfg_read fs cfg paths = Ok (merged, read_ok) ->
  _defaults merged !! opt = _defaults cfg !! opt.
Proof.
  induction paths as [|p paths IH]; intros cfg merged read_ok H; simpl.
  { by intros [= <- _]. }
  inversion H as [|? ? Hp Hrest]; subst.
  unfold defines_default in Hp.
  destruct (fs p) as [| |k args|content]; try (by apply IH); [done|].
  destruct (cfg_read fs (merge_file content cfg) paths) as [[c r]|] eqn:Hc;
    [|done].
  simpl. intros [= <- _]. rewrite (IH _ _ _ Hrest Hc), merge_file_default.
  apply bool_decide_eq_false in Hp.
  destruct (_defaults content !! opt); [|done].
  exfalso. apply Hp. eauto.
Qed.

(** The last file that sets an option decides its value. *)
Lemma cfg_read_last (fs : filesystem) (section opt v : string)
    (pre post : list Path) (p : Path)
    (content cfg merged : ConfigParser) (read_ok : list Path) :
  fs p = ConfigFile content ->
  opt_lookup content section opt = Some v ->
  Forall (fun q => defines fs section opt q = false) post ->
  cfg_read fs cfg (pre ++ p :: post) = Ok (merged, read_ok) ->
  opt_lookup merged section opt = Some v.
Proof.
  intros Hp Hv Hpost Hread.
  apply cfg_read_app in Hread as (cfg1 & r1 & r2 & _ & H2 & _).
  simpl in H2. rewrite Hp in H2.
  destruct (cfg_read fs (merge_file content cfg1) post) as [[c r]|] eqn:Hc;
    [|done].
  simpl in H2. injection H2 as <- _.
  by rewrite (cfg_read_keeps _ _ _ _ _ _ _ Hpost Hc), merge_file_lookup, Hv.
Qed.


(** Setting the host name changes no default and removes no option. *)
Lemma read_config_lookup (fs : filesystem) (paths : list Path)
    (cfg : ConfigParser) :
  Kattis._read_config fs paths = Ok cfg ->
  exists merged read_ok,
    cfg_read fs ConfigParser_new (Kattis.DEFAULT_CONFIG :: paths) =
      Ok (merged, read_ok) /\
    _defaults cfg = _defaults merged /\
    (forall section opt v,
       opt_lookup merged section opt = Some v ->
       opt_lookup cfg section opt = Some v) /\
    (has_option merged "kattis" "hostname" = false ->
     opt_lookup cfg "kattis" "hostname" = Some "open.kattis.com").
Proof.
  intros H. apply read_config_cases in H
    as (merged & r & Hread & [[Hh ->]|[Hh (sd & Hs & ->)]]);
    exists merged, r; (split; [done|]); (split; [done|]).
  { split; [done|]. congruence. }
  unfold opt_lookup. cbn [_sections]. split.
  - intros section opt v.
    destruct (decide (section = "kattis")) as [->|Hne].
    + rewrite lookup_insert_eq, Hs. simpl.
      destruct (decide (opt = "hostname")) as [->|Hno].
      * intros Hv.
        rewrite (has_option_visible merged "kattis" "hostname" eq_refl) in Hh.
        apply bool_decide_eq_false in Hh. exfalso. apply Hh. exists v.
        unfold visible. rewrite Hs. apply lookup_union_Some_l. exact Hv.
      * by rewrite lookup_insert_ne.
    + by rewrite lookup_insert_ne.
  - intros _. rewrite lookup_insert_eq. simpl. by rewrite lookup_insert_eq.
Qed.





(** What [get] returns for an option a section of the parser holds. *)
Lemma cfg_get_stored (cfg : ConfigParser) (section opt v : string) :
  opt_lookup cfg section opt = Some v ->
  optionxform opt = opt -> has_percent v = false ->
  cfg_get cfg section opt = Ok v.
Proof.
  intros Hl Hx Hp. apply cfg_get_plain; [|done].
  unfold opt_lookup in Hl. unfold visible.
  destruct (_sections cfg !! section) as [sd|]; [|done]. simpl in Hl.
  rewrite Hx. by apply lookup_union_Some_l.
Qed.

(** X13. In a loaded configuration an option of a section has the value
    given by the last supplied file that sets it in that section: later
    paths override earlier ones, and every supplied file overrides the
    system-wide default file.  [get] returns that value when the option
    name is in lower case, as the parser stores it, and the value holds no
    ["%"]. *)
Theorem read_config_last_definition_wins (fs : filesystem)
    (pre post : list Path) (p : Path) (content cfg : ConfigParser)
    (section opt v : string) :
  Kattis._read_config fs (pre ++ p :: post) = Ok cfg ->
  fs p = ConfigFile content ->
  opt_lookup content section opt = Some v ->
  Forall (fun q => defines fs section opt q = false) post ->
  opt_lookup cfg section opt = Some v /\
  (optionxform opt = opt -> has_percent v = false ->
   cfg_get cfg section opt = Ok v).
Proof.
  intros Hload Hp Hv Hpost.
  assert (opt_lookup cfg section opt = Some v) as Hl.
  { apply read_config_lookup in Hload as (merged & r & Hread & _ & Hk & _).
    apply Hk.
    rewrite (app_comm_cons pre (p :: post) Kattis.DEFAULT_CONFIG) in Hread.
    exact (cfg_read_last fs section opt v _ post p content _ _ _ Hp Hv Hpost
             Hread). }
  split; [done|]. intros Hx Hpc. by apply cfg_get_stored.
Qed.

Lemma read_config_last_definition_wins_witness :
  let fs := with_default example_com ".kattisrc" alice_config in
  exists cfg,
    Kattis._read_config fs [".kattisrc"] = Ok cfg /\
    cfg_get cfg "kattis" "hostname" = Ok "open.kattis.com".
Proof.
  intros fs. eexists. split; [vm_compute; reflexivity|].
  apply (read_config_last_definition_wins fs [] [] ".kattisrc" alice_config
           _ "kattis" "hostname" "open.kattis.com");
    [vm_compute; reflexivity|reflexivity|reflexivity|constructor
    |reflexivity|reflexivity].
Defined.

(** X14. An option that, in its section, only the system-wide default file
    sets keeps the default file's value in the loaded configuration; [get]
    returns it when the option name is in lower case and the value holds
    no ["%"]. *)
Theorem read_config_default_file_survives (fs : filesystem)
    (paths : list Path) (content cfg : ConfigParser)
    (section opt v : string) :
  Kattis._read_config fs paths = Ok cfg ->
  fs Kattis.DEFAULT_CONFIG = ConfigFile content ->
  opt_lookup content section opt = Some v ->
  Forall (fun q => defines fs section opt q = false) paths ->
  opt_lookup cfg section opt = Some v /\
  (optionxform opt = opt -> has_percent v = false ->
   cfg_get cfg section opt = Ok v).
Proof.
  intros Hload Hp Hv Hpaths.
  assert (opt_lookup cfg section opt = Some v) as Hl.
  { apply read_config_lookup in Hload as (merged & r & Hread & _ & Hk & _).
    apply Hk.
    exact (cfg_read_last fs section opt v [] paths Kattis.DEFAULT_CONFIG
             content _ _ _ Hp Hv Hpaths Hread). }
  split; [done|]. intros Hx Hpc. by apply cfg_get_stored.
Qed.

Lemma read_config_default_file_survives_witness :
  let fs := with_default example_com ".kattisrc" user_only in
  exists cfg,
    Kattis._read_config fs [".kattisrc"] = Ok cfg /\
    cfg_get cfg "kattis" "hostname" = Ok "example.com".
Proof.
  intros fs. eexists. split; [vm_compute; reflexivity|].
  apply (read_config_default_file_survives fs [".kattisrc"] example_com
           _ "kattis" "hostname" "example.com");
    [vm_compute; reflexivity|reflexivity|reflexivity|repeat constructor
    |reflexivity|reflexivity].
Defined.

(** X15. When no file read sets [hostname], neither in its [kattis]
    section nor in its [DEFAULT] section, a configuration that loads has
    the host name [open.kattis.com] in the [kattis] section, and so has the
    [hostname] property. *)
Theorem read_config_default_hostname (fs : filesystem) (paths : list Path)
    (cfg : ConfigParser) (c : option RequestCache.t) :
  Kattis._read_config fs paths = Ok cfg ->
  Forall (fun q => defines fs "kattis" "hostname" q = false)
    (Kattis.DEFAULT_CONFIG :: paths) ->
  Forall (fun q => defines_default fs "hostname" q = false)
    (Kattis.DEFAULT_CONFIG :: paths) ->
  opt_lookup cfg "kattis" "hostname" = Some "open.kattis.com" /\
  cfg_get cfg "kattis" "hostname" = Ok "open.kattis.com" /\
  Kattis.hostname (Kattis.mk cfg c) = Ok "open.kattis.com".
Proof.
  intros Hload Hno Hnd.
  pose proof (read_config_hostname _ _ _ Hload) as Hhas.
  apply read_config_lookup in Hload as (merged & r & Hread & _ & _ & Hset).
  assert (has_option merged "kattis" "hostname" = false) as Hm.
  { assert (opt_lookup merged "kattis" "hostname" = None) as Hk.
    { rewrite (cfg_read_keeps _ _ _ _ _ _ _ Hno Hread).
      unfold opt_lookup, ConfigParser_new. cbn [_sections].
      by rewrite lookup_empty. }
    assert (_defaults merged !! "hostname" = None) as Hkd.
    { rewrite (cfg_read_keeps_default _ _ _ _ _ _ Hnd Hread).
      apply lookup_empty. }
    rewrite (has_option_visible merged "kattis" "hostname" eq_refl).
    apply bool_decide_eq_false. intros [v Hv].
    unfold visible in Hv. unfold opt_lookup in Hk.
    destruct (_sections merged !! "kattis") as [sd|]; [|done].
    simpl in Hk. change (optionxform "hostname") with "hostname" in Hv.
    apply lookup_union_Some_raw in Hv as [Hv|[_ Hv]]; congruence. }
  specialize (Hset Hm).
  assert (cfg_get cfg "kattis" "hostname" = Ok "open.kattis.com") as Hg
    by (by apply cfg_get_stored).
  split; [done|]. split; [done|].
  unfold Kattis.hostname, Kattis.get_cfg. cbn [Kattis.config].
  by rewrite Hhas, Hg.
Qed.

Lemma read_config_default_hostname_witness :
  let fs := single_file ".kattisrc" custom_login in
  exists cfg,
    Kattis._read_config fs [".kattisrc"] = Ok cfg /\
    Kattis.hostname (Kattis.mk cfg None) = Ok "open.kattis.com".
Proof.
  intros fs. eexists. split; [vm_compute; reflexivity|].
  apply (read_config_default_hostname fs [".kattisrc"] _ None);
    [vm_compute; reflexivity|repeat constructor|repeat constructor].
Defined.

(** ** URLs *)

Lemma string_app_assoc (a b c : string) : (a ++ b) ++ c = a ++ b ++ c.
Proof.
  induction a as [|x a IH]; [done|].
  change (String x ((a ++ b) ++ c) = String x (a ++ b ++ c)).
  by rewrite IH.
Qed.

(** [get] returns for every option there is, when no value holds a
    ["%"]. *)
Lemma plain_get (cfg : ConfigParser) (opt : string) :
  plain cfg -> has_option cfg "kattis" opt = true ->
  returns (cfg_get cfg "kattis" opt).
Proof.
  intros Hp Ho. rewrite (has_option_visible cfg "kattis" opt eq_refl) in Ho.
  apply bool_decide_eq_true in Ho as [v Hv]. exists v.
  apply cfg_get_plain; [done|]. by eapply plain_visible.
Qed.

(** With a host name in the [kattis] section every site-wide URL is
    there. *)
Lemma get_url_returns (self : Kattis.t) (opt default : string) :
  plain (Kattis.config self) ->
  has_option (Kattis.config self) "kattis" "hostname" = true ->
  returns (Kattis.get_url self opt default "kattis" None).
Proof.
  intros Hp Hh. destruct (plain_get _ _ Hp Hh) as [h Hg].
  rewrite (get_url_spec self opt default "kattis" None h Hg).
  destruct (has_option (Kattis.config self) "kattis" opt) eqn:Ho.
  - by apply plain_get.
  - by eexists.
Qed.

Lemma example_com_plain : plain example_com.
Proof.
  split; [apply map_Forall_empty|].
  apply map_Forall_singleton. by apply map_Forall_singleton.
Qed.

(** X16. On a loaded configuration none of whose values holds a ["%"], no
    URL function raises, whatever contest, problem, submission or user it
    is given: the site-wide URLs, the contest-scoped ones and the composed
    ones all return a string. *)
Theorem urls_never_raise (fs : filesystem) (paths : list Path)
    (cfg : ConfigParser) (c : option RequestCache.t)
    (contest : option object) (x : object) :
  Kattis._read_config fs paths = Ok cfg ->
  plain cfg ->
  let self := Kattis.mk cfg c in
  returns (Kattis.login_url self) /\ returns (Kattis.logout_url self) /\
  returns (Kattis.submit_url self contest) /\
  returns (Kattis.submissions_url self contest) /\
  returns (Kattis.problems_url self contest) /\
  returns (Kattis.contests_url self) /\
  returns (Kattis.past_contests_url self) /\
  returns (Kattis.challenge_url self) /\ returns (Kattis.users_url self) /\
  returns (Kattis.ranklist_url self) /\
  returns (Kattis.affiliations_url self) /\
  returns (Kattis.countries_url self) /\ returns (Kattis.authors_url self) /\
  returns (Kattis.sources_url self) /\ returns (Kattis.jobs_url self) /\
  returns (Kattis.relay_url self) /\ returns (Kattis.languages_url self) /\
  returns (Kattis.info_url self) /\ returns (Kattis.policies_url self) /\
  returns (Kattis.search_url self) /\ returns (Kattis.support_url self) /\
  returns (Kattis.request_affiliation_url self) /\
  returns (Kattis.contest_url self x) /\
  returns (Kattis.submission_url self x contest) /\
  returns (Kattis.problem_url self x contest) /\
  returns (Kattis.problem_statistics_url self x contest) /\
  returns (Kattis.user_url self (Some x)).
Proof.
  intros Hload Hplain self.
  pose proof (read_config_hostname _ _ _ Hload) as Hh.
  assert (forall opt default,
            returns (Kattis.get_url self opt default "kattis" None)) as Hg
    by (intros; by apply (get_url_returns self)).
  assert (forall y, returns (Kattis.contest_url self y)) as Hc.
  { intros y. unfold Kattis.contest_url, Kattis.contests_url.
    destruct (Hg "contestsurl" "contests") as [u ->]. by eexists. }
  assert (forall ct, returns (Kattis.submissions_url self ct)) as Hs.
  { intros [y|]; simpl; [|apply Hg]. destruct (Hc y) as [u ->]. by eexists. }
  assert (forall ct, returns (Kattis.problems_url self ct)) as Hp.
  { intros [y|]; simpl; [|apply Hg]. destruct (Hc y) as [u ->]. by eexists. }
  repeat split; try apply Hg; try done.
  - destruct contest as [y|]; simpl; [|apply Hg].
    destruct (Hc y) as [u ->]. by eexists.
  - unfold Kattis.submission_url. destruct (Hs contest) as [u ->].
    by eexists.
  - unfold Kattis.problem_url. destruct (Hp contest) as [u ->]. by eexists.
  - unfold Kattis.problem_statistics_url, Kattis.problem_url.
    destruct (Hp contest) as [u ->]. by eexists.
  - unfold Kattis.user_url, Kattis.users_url. simpl.
    destruct (Hg "usersurl" "users") as [u ->]. by eexists.
Qed.

Lemma urls_never_raise_witness :
  returns (Kattis.login_url (Kattis.mk example_com None)).
Proof.
  assert (Kattis._read_config (single_file ".kattisrc" example_com)
            [".kattisrc"] = Ok example_com) as Hload
    by (vm_compute; reflexivity).
  exact (proj1 (urls_never_raise _ _ _ None None (OStr "2sum") Hload
                  example_com_plain)).
Defined.

(** X17. On a loaded configuration none of whose values holds a ["%"], the
    submit, submissions and problems URLs under a contest, and the URLs of
    a submission, a problem and its statistics, are built on the contest's
    own URL, [contests_url()/<contest>]; the overrides [submissionurl],
    [submissionsurl] and [problemsurl] play no part. *)
Theorem contest_scoped_urls (fs : filesystem) (paths : list Path)
    (cfg : ConfigParser) (c : option RequestCache.t)
    (contest x : object) :
  Kattis._read_config fs paths = Ok cfg ->
  plain cfg ->
  let self := Kattis.mk cfg c in
  exists base,
    Kattis.contests_url self = Ok base /\
    Kattis.contest_url self contest = Ok (base ++ "/" ++ str contest) /\
    Kattis.submit_url self (Some contest) =
      Ok (base ++ "/" ++ str contest ++ "/submit") /\
    Kattis.submissions_url self (Some contest) =
      Ok (base ++ "/" ++ str contest ++ "/submissions") /\
    Kattis.problems_url self (Some contest) =
      Ok (base ++ "/" ++ str contest ++ "/problems") /\
    Kattis.submission_url self x (Some contest) =
      Ok (base ++ "/" ++ str contest ++ "/submissions/" ++ str x) /\
    Kattis.problem_url self x (Some contest) =
      Ok (base ++ "/" ++ str contest ++ "/problems/" ++ str x) /\
    Kattis.problem_statistics_url self x (Some contest) =
      Ok (base ++ "/" ++ str contest ++ "/problems/" ++ str x
            ++ "/statistics").
Proof.
  intros Hload Hplain self.
  pose proof (read_config_hostname _ _ _ Hload) as Hh.
  destruct (get_url_returns self "contestsurl" "contests" Hplain Hh)
    as [base Hb].
  exists base. split; [done|].
  unfold Kattis.problem_statistics_url, Kattis.problem_url,
    Kattis.submission_url, Kattis.problems_url, Kattis.submissions_url,
    Kattis.submit_url, Kattis.contest_url, Kattis.contests_url.
  rewrite Hb. simpl.
  repeat split; f_equal; rewrite ?string_app_assoc; simpl;
    rewrite ?string_app_assoc; reflexivity.
Qed.

Lemma contest_scoped_urls_witness :
  Kattis.submissions_url (Kattis.mk example_com None) (Some (OStr "abc123")) =
  Ok "https://example.com/contests/abc123/submissions".
Proof.
  assert (Kattis._read_config (single_file ".kattisrc" example_com)
            [".kattisrc"] = Ok example_com) as Hload
    by (vm_compute; reflexivity).
  destruct (contest_scoped_urls _ _ _ None (OStr "abc123") (OStr "1")
              Hload example_com_plain) as (base & Hb & _ & _ & Hs & _).
  injection Hb as <-. exact Hs.
Defined.

(** X18. On a loaded configuration none of whose values holds a ["%"], the
    URL of an entity is the URL of the collection of its kind (contests,
    submissions, problems or users) followed by ["/"] and the
    identifier. *)
Theorem entity_url_is_collection_and_identifier (fs : filesystem)
    (paths : list Path) (cfg : ConfigParser)
    (c : option RequestCache.t) (e : entity) :
  Kattis._read_config fs paths = Ok cfg ->
  plain cfg ->
  let self := Kattis.mk cfg c in
  exists base,
    collection_url self (kind_of e) = Ok base /\
    entity_url self e = Ok (base ++ "/" ++ identifier e).
Proof.
  intros Hload Hplain self.
  pose proof (read_config_hostname _ _ _ Hload) as Hh.
  destruct e as [x|x|x|x]; simpl.
  - destruct (get_url_returns self "contestsurl" "contests" Hplain Hh)
      as [b Hb].
    exists b. unfold Contest_url, Kattis.contest_url, Kattis.contests_url.
    by rewrite Hb.
  - destruct (get_url_returns self "submissionsurl" "submissions" Hplain Hh)
      as [b Hb].
    exists b. unfold Submission_url, Kattis.submission_url. simpl.
    by rewrite Hb.
  - destruct (get_url_returns self "problemsurl" "problems" Hplain Hh)
      as [b Hb].
    exists b. unfold Problem_url, Kattis.problem_url. simpl. by rewrite Hb.
  - destruct (get_url_returns self "usersurl" "users" Hplain Hh) as [b Hb].
    exists b. unfold User_url, Kattis.user_url, Kattis.users_url. simpl.
    by rewrite Hb.
Qed.

Lemma entity_url_is_collection_and_identifier_witness :
  entity_url (Kattis.mk example_com None) (EProblem (Problem.__init__ 0 "2sum"))
  = Ok "https://example.com/problems/2sum".
Proof.
  assert (Kattis._read_config (single_file ".kattisrc" example_com)
            [".kattisrc"] = Ok example_com) as Hload
    by (vm_compute; reflexivity).
  destruct (entity_url_is_collection_and_identifier _ _ _ None
              (EProblem (Problem.__init__ 0 "2sum")) Hload example_com_plain)
    as (base & Hb & He).
  injection Hb as <-. exact He.
Defined.

(** X19. On a loaded configuration none of whose values holds a ["%"],
    [user_url(user)] is [users_url()/<user>]; without an argument it uses
    the configured user name, and raises the configuration parser's error
    when there is none, although the users URL itself is there. *)
Theorem user_url_defaults_to_username (fs : filesystem) (paths : list Path)
    (cfg : ConfigParser) (c : option RequestCache.t) :
  Kattis._read_config fs paths = Ok cfg ->
  plain cfg ->
  let self := Kattis.mk cfg c in
  exists users,
    Kattis.users_url self = Ok users /\
    (forall x, Kattis.user_url self (Some x) = Ok (users ++ "/" ++ str x)) /\
    Kattis.user_url self None =
      match cfg_get cfg "user" "username" with
      | Ok u => Ok (users ++ "/" ++ u)
      | Raise e => Raise e
      end.
Proof.
  intros Hload Hplain self.
  pose proof (read_config_hostname _ _ _ Hload) as Hh.
  destruct (get_url_returns self "usersurl" "users" Hplain Hh) as [b Hb].
  exists b. split; [done|].
  unfold Kattis.user_url, Kattis.users_url, Kattis.username. simpl.
  split.
  - intros x. by rewrite Hb.
  - destruct (cfg_get cfg "user" "username"); simpl; [|done]. by rewrite Hb.
Qed.

Lemma user_url_defaults_to_username_witness :
  Kattis.user_url (Kattis.mk example_com None) None =
  Raise (mk_exn NoSectionError ["user"]).
Proof.
  assert (Kattis._read_config (single_file ".kattisrc" example_com)
            [".kattisrc"] = Ok example_com) as Hload
    by (vm_compute; reflexivity).
  destruct (user_url_defaults_to_username _ _ _ None Hload example_com_plain)
    as (users & _ & _ & H).
  exact H.
Defined.

(** ** The session over sequences of operations *)

Lemma extends_refl (p : Kattis.process) : extends p p.
Proof.
  split; [done|]. split; [exists []; by rewrite app_nil_r|]. split; [lia|done].
Qed.

Lemma extends_trans (p1 p2 p3 : Kattis.process) :
  extends p1 p2 -> extends p2 p3 -> extends p1 p3.
Proof.
  intros (C1 & (m1 & S1) & N1 & A1) (C2 & (m2 & S2) & N2 & A2).
  split; [congruence|]. split.
  { exists (m1 ++ m2)%list. by rewrite S2, S1, app_assoc. }
  split; [lia|auto].
Qed.

Lemma allocated_dict (p : Kattis.process) :
  allocated p <->
  forall k resp, cache_dict p !! k = Some resp -> k < Kattis.next_id p.
Proof.
  unfold allocated, cache_dict. split.
  - intros H k resp Hk.
    destruct (Kattis._cache (Kattis.session p)) as [c|] eqn:Hc; [|done].
    eauto.
  - intros H c k resp Hc Hk. rewrite Hc in H. eauto.
Qed.

(** Reading [self.cache] keeps everything, the dictionary included. *)
Lemma cache_extends (p : Kattis.process) (r : result RequestCache.t)
    (p' : Kattis.process) :
  Kattis.cache p = (r, p') ->
  extends p p' /\ cache_dict p' = cache_dict p /\
  Kattis.next_id p' = Kattis.next_id p /\ Kattis.sent p' = Kattis.sent p /\
  exists c, r = Ok c /\ Kattis._cache (Kattis.session p') = Some c.
Proof.
  intros H.
  destruct (cache_spec p) as (c & p0 & Hc & Hc0 & Hcfg & Hsent & Hnext & Hdef).
  rewrite Hc in H. injection H as <- <-.
  assert (cache_dict p0 = cache_dict p) as Hd.
  { unfold cache_dict. rewrite Hc0, Hdef.
    by destruct (Kattis._cache (Kattis.session p)). }
  split; [|eauto 10].
  split; [done|]. split; [exists []; by rewrite app_nil_r|].
  split; [lia|].
  rewrite !allocated_dict, Hd, Hnext. done.
Qed.

(** Building the login request changes the allocator only, and only when
    the request is built. *)
Lemma login_request_state (p : Kattis.process) (r : result Request)
    (p' : Kattis.process) :
  Kattis.login_request p = (r, p') ->
  Kattis.session p' = Kattis.session p /\ Kattis.sent p' = Kattis.sent p /\
  ((exists e, r = Raise e /\ p' = p) \/
   (exists req, r = Ok req /\ req_id req = Kattis.next_id p /\
                Kattis.next_id p' = S (Kattis.next_id p))).
Proof.
  destruct r as [req|e].
  - intros H. apply login_request_ok in H as (-> & Hid & _). simpl.
    do 2 (split; [done|]). right. eauto.
  - unfold Kattis.login_request, Kattis.lift, Kattis.raise,
      Kattis.Request_new.
    unfold mbind, Kattis.M_bind.
    destruct (Kattis.password (Kattis.session p)) as [pw|] eqn:Hpw;
      [|intros [= <- <-]; eauto 10].
    destruct (Kattis.token (Kattis.session p)) as [tk|] eqn:Htk;
      [|intros [= <- <-]; eauto 10].
    destruct (bool_decide (pw = None) && bool_decide (tk = None));
      [intros [= <- <-]; eauto 10|].
    cbv beta. rewrite Hpw, Htk.
    destruct (Kattis.username (Kattis.session p)) as [user|];
      [|intros [= <- <-]; eauto 10].
    destruct (Kattis.login_url (Kattis.session p)) as [url|];
      [|intros [= <- <-]; eauto 10].
    done.
Qed.

Lemma login_request_extends (p : Kattis.process) (r : result Request)
    (p' : Kattis.process) :
  Kattis.login_request p = (r, p') ->
  extends p p' /\ cache_dict p' = cache_dict p /\
  forall req, r = Ok req ->
    req_id req = Kattis.next_id p /\ req_id req < Kattis.next_id p'.
Proof.
  intros H. apply login_request_state in H as (Hs & Hsent & Hcase).
  assert (cache_dict p' = cache_dict p) as Hd
    by (unfold cache_dict; by rewrite Hs).
  assert (Kattis.next_id p <= Kattis.next_id p') as Hn.
  { destruct Hcase as [(e & _ & ->)|(req & _ & _ & ->)]; lia. }
  split; [|split; [done|]].
  - split; [by rewrite Hs|]. split; [exists []; by rewrite app_nil_r|].
    split; [done|]. rewrite !allocated_dict, Hd. intros Ha k resp Hk.
    specialize (Ha k resp Hk). lia.
  - intros req ->. destruct Hcase as [(e & ? & _)|(req' & Hr & Hid & Hn')];
      [done|]. injection Hr as <-. split; [done|lia].
Qed.

(** A method call on the cache that leaves the log alone and adds no
    key. *)
Lemma cache_call_pure {A : Type} (f : RequestCache.t -> A)
    (g : RequestCache.t -> RequestCache.t) (p : Kattis.process)
    (r : result A) (p' : Kattis.process) :
  (forall c k resp, RequestCache.cache (g c) !! k = Some resp ->
                    RequestCache.cache c !! k = Some resp) ->
  Kattis.cache_call (fun c sent => (Ok (f c), g c, sent)) p = (r, p') ->
  extends p p' /\ Kattis.sent p' = Kattis.sent p /\
  Kattis.next_id p' = Kattis.next_id p /\
  cache_dict p' =
    RequestCache.cache (g (RequestCache.mk (cache_dict p))) /\
  r = Ok (f (RequestCache.mk (cache_dict p))).
Proof.
  intros Hg. unfold Kattis.cache_call. rewrite bind_unfold.
  destruct (Kattis.cache p) as [rc p0] eqn:Hc.
  apply cache_extends in Hc as (Hext & Hd & Hn & Hs & c & -> & Hc0).
  unfold Kattis.on_cache. intros [= <- <-].
  assert (c = RequestCache.mk (cache_dict p)) as ->.
  { rewrite <- Hd. unfold cache_dict. rewrite Hc0. by destruct c. }
  simpl. split; [|by rewrite Hs, Hn].
  apply (extends_trans _ _ _ Hext).
  split; [done|]. split; [exists []; by rewrite app_nil_r|]. split; [done|].
  rewrite !allocated_dict. unfold cache_dict at 2. simpl.
  intros Ha k resp Hk. apply Hg in Hk. simpl in Hk. rewrite <- Hd in Hk.
  eauto.
Qed.

(** Every key a [send] leaves in the dictionary was there or is the key of
    the request sent; the log grows by that request or not at all. *)
Lemma send_keys (net : transport) (c : RequestCache.t) (sent : list Request)
    (req : Request) (use_cached : bool) (r : result Response)
    (c' : RequestCache.t) (sent' : list Request) :
  RequestCache.send net c sent req use_cached = (r, c', sent') ->
  (forall k resp, RequestCache.cache c' !! k = Some resp ->
                  k = dict_key req \/ RequestCache.cache c !! k = Some resp) /\
  (sent' = sent \/ sent' = (sent ++ [req])%list).
Proof.
  unfold RequestCache.send, requests_session_send, Session_send.
  destruct (negb use_cached || _).
  - destruct (prepare_error net req); [intros [= <- <- <-]; auto|].
    destruct (net sent req) as [resp|e]; intros [= <- <- <-]; simpl.
    + split; [|auto]. intros k resp0 Hk.
      destruct (decide (dict_key req = k)) as [<-|Hne]; [auto|].
      rewrite lookup_insert_ne in Hk by done. auto.
    + auto.
  - intros [= <- <- <-]. auto.
Qed.

Lemma cache_call_send_extends (net : transport) (req : Request)
    (use_cached : bool) (p : Kattis.process) (r : result Response)
    (p' : Kattis.process) :
  req_id req < Kattis.next_id p ->
  Kattis.cache_call
    (fun c sent => RequestCache.send net c sent req use_cached) p = (r, p') ->
  extends p p'.
Proof.
  intros Hid. rewrite cache_call_send. cbv zeta.
  destruct (RequestCache.send net _ (Kattis.sent p) req use_cached)
    as [[r0 c'] sent'] eqn:Hs.
  intros [= <- <-]. apply send_keys in Hs as (Hk & Hsent).
  split; [done|]. split.
  { destruct Hsent as [->| ->]; [exists []; by rewrite app_nil_r|eauto]. }
  split; [simpl; lia|].
  rewrite !allocated_dict. unfold cache_dict at 2. simpl.
  intros Ha k resp Hl. destruct (Hk _ _ Hl) as [->|Hold]; [done|].
  apply (Ha k resp). unfold cache_dict.
  by destruct (Kattis._cache (Kattis.session p)).
Qed.

Lemma send_login_request_extends (net : transport) (use_cached : bool)
    (p : Kattis.process) (r : result Response) (p' : Kattis.process) :
  Kattis.send_login_request net use_cached p = (r, p') -> extends p p'.
Proof.
  unfold Kattis.send_login_request. rewrite bind_unfold.
  destruct (Kattis.cache p) as [rc p0] eqn:Hc.
  apply cache_extends in Hc as (Hext & _ & _ & _ & c & -> & _).
  rewrite bind_unfold.
  destruct (Kattis.login_request p0) as [rr p1] eqn:Hreq.
  apply login_request_extends in Hreq as (Hext1 & _ & Hid).
  destruct rr as [req|e].
  - intros H. apply cache_call_send_extends in H; [|by apply Hid].
    eauto using extends_trans.
  - intros [= <- <-]. eauto using extends_trans.
Qed.

(** Classifying the status changes nothing. *)
Lemma login_state (net : transport) (use_cached : bool)
    (p : Kattis.process) (r : result Response) (p' : Kattis.process) :
  Kattis.login net use_cached p = (r, p') ->
  exists r1, Kattis.send_login_request net use_cached p = (r1, p') /\
             forall resp, r = Ok resp -> r1 = Ok resp /\ status_code resp = 200%Z.
Proof.
  unfold Kattis.login. rewrite bind_unfold.
  destruct (Kattis.send_login_request net use_cached p) as [[resp|e] p1];
    [|intros [= <- <-]; eexists; split; [done|]; by intros].
  destruct (status_code resp =? 403)%Z eqn:H403.
  { rewrite bind_unfold. unfold Kattis.lift, Kattis.raise.
    destruct (Kattis.username _); intros [= <- <-]; eexists;
      (split; [done|]); by intros. }
  destruct (status_code resp =? 404)%Z eqn:H404.
  { rewrite bind_unfold. unfold Kattis.lift, Kattis.raise.
    destruct (Kattis.login_url _); intros [= <- <-]; eexists;
      (split; [done|]); by intros. }
  destruct (status_code resp =? 200)%Z eqn:H200; simpl.
  - intros [= <- <-]. eexists. split; [done|]. intros ? [= <-].
    split; [done|]. by apply Z.eqb_eq.
  - intros [= <- <-]. eexists. split; [done|]. by intros.
Qed.

Lemma login_extends (net : transport) (use_cached : bool)
    (p : Kattis.process) (r : result Response) (p' : Kattis.process) :
  Kattis.login net use_cached p = (r, p') -> extends p p'.
Proof.
  intros H. apply login_state in H as (r1 & H & _).
  by apply send_login_request_extends in H.
Qed.

Lemma is_logged_in_extends (p : Kattis.process) (r : result bool)
    (p' : Kattis.process) :
  Kattis.is_logged_in p = (r, p') -> extends p p'.
Proof.
  unfold Kattis.is_logged_in. rewrite bind_unfold.
  destruct (Kattis.login_request p) as [rr p1] eqn:Hreq.
  apply login_request_extends in Hreq as (Hext1 & _ & _).
  destruct rr as [req|e]; [|by intros [= <- <-]].
  intros H.
  apply (cache_call_pure (fun c => RequestCache.__contains__ c req) id) in H
    as (Hext2 & _); [|done].
  eauto using extends_trans.
Qed.

Lemma logout_extends (p : Kattis.process) (r : result unit)
    (p' : Kattis.process) :
  Kattis.logout p = (r, p') -> extends p p'.
Proof.
  unfold Kattis.logout. rewrite bind_unfold.
  destruct (Kattis.cache p) as [rc p0] eqn:Hc.
  apply cache_extends in Hc as (Hext & _ & _ & _ & c & -> & _).
  rewrite bind_unfold.
  destruct (Kattis.login_request p0) as [rr p1] eqn:Hreq.
  apply login_request_extends in Hreq as (Hext1 & _ & _).
  destruct rr as [req|e]; [|intros [= <- <-]; eauto using extends_trans].
  intros H.
  apply (cache_call_pure (fun _ => ())
           (fun c => RequestCache.invalidate c req)) in H as (Hext2 & _).
  - eauto using extends_trans.
  - intros c0 k resp Hk. simpl in Hk.
    by apply lookup_delete_Some in Hk as [_ Hk].
Qed.

Lemma cookies_extends (net : transport) (p : Kattis.process)
    (r : result (gmap string string)) (p' : Kattis.process) :
  Kattis.cookies net p = (r, p') -> extends p p'.
Proof.
  unfold Kattis.cookies, Kattis.login_response. rewrite bind_unfold.
  destruct (Kattis.login net true p) as [[resp|e] p1] eqn:Hl;
    intros [= <- <-]; by apply login_extends in Hl.
Qed.

Lemma get_extends (net : transport) (url : string)
    (data params : option (gmap string string)) (use_cached : bool)
    (p : Kattis.process) (r : result Response) (p' : Kattis.process) :
  Kattis.get net url data params use_cached p = (r, p') -> extends p p'.
Proof.
  unfold Kattis.get. rewrite bind_unfold.
  destruct (Kattis.cookies net p) as [[ck|e] p1] eqn:Hck;
    [|intros [= <- <-]; by apply cookies_extends in Hck].
  apply cookies_extends in Hck.
  rewrite bind_unfold. unfold Kattis.Request_new at 1.
  rewrite bind_unfold.
  destruct (Kattis.cache _) as [rc p2] eqn:Hc.
  apply cache_extends in Hc as (Hext2 & _ & Hn2 & _ & c & -> & _).
  intros H. apply cache_call_send_extends in H;
    [|simpl in *; rewrite Hn2; simpl; lia].
  apply (extends_trans _ _ _ Hck).
  refine (extends_trans _ _ _ _ (extends_trans _ _ _ Hext2 H)).
  split; [done|]. split; [exists []; by rewrite app_nil_r|].
  split; [simpl; lia|].
  rewrite !allocated_dict. unfold cache_dict. simpl.
  intros Ha k resp Hk. specialize (Ha k resp Hk). lia.
Qed.

Lemma session_step_extends (net : transport) (p : Kattis.process)
    (op : session_op) : extends p (session_step net p op).
Proof.
  destruct op; simpl.
  - eapply login_extends. apply surjective_pairing.
  - eapply is_logged_in_extends. apply surjective_pairing.
  - eapply logout_extends. apply surjective_pairing.
  - eapply cookies_extends. apply surjective_pairing.
  - eapply get_extends. apply surjective_pairing.
Qed.

Lemma session_run_extends_gen (net : transport) (ops : list session_op) :
  forall p, extends p (session_run net p ops).
Proof.
  induction ops as [|op ops IH]; intros p; [apply extends_refl|].
  simpl. eapply extends_trans; [apply session_step_extends|apply IH].
Qed.

(** X20. Whatever sequence of [login], [is_logged_in], [logout], [cookies]
    and [get] calls a session goes through, returning or raising: the
    configuration is never changed, the log of network calls only grows at
    its end, object identities only grow, and the keys of the cache stay
    identities of allocated objects; in a session that starts without a
    cache they always are. *)
Theorem session_run_extends (net : transport) (ops : list session_op)
    (p : Kattis.process) :
  let p' := session_run net p ops in
  Kattis.config (Kattis.session p') = Kattis.config (Kattis.session p) /\
  (exists more, Kattis.sent p' = (Kattis.sent p ++ more)%list) /\
  Kattis.next_id p <= Kattis.next_id p' /\
  (allocated p -> allocated p') /\
  (Kattis._cache (Kattis.session p) = None -> allocated p').
Proof.
  destruct (session_run_extends_gen net ops p) as (Hc & Hs & Hn & Ha).
  do 4 (split; [done|]). intros Hnone. apply Ha.
  intros c k resp Hcache. congruence.
Qed.

Lemma session_run_extends_witness :
  allocated (session_run (stub 200) (start alice_config)
               [SLogin true; SLogout; SCookies]).
Proof.
  exact (proj2 (proj2 (proj2 (proj2
           (session_run_extends (stub 200) [SLogin true; SLogout; SCookies]
              (start alice_config))))) eq_refl).
Defined.

(** X21. [is_logged_in()] never returns [True], whatever the session did
    before: it returns [False] or raises.  The login request it looks up
    is a new object, which no entry of the cache is filed under. *)
Theorem is_logged_in_is_never_true (net : transport)
    (ops : list session_op) (cfg : ConfigParser) :
  let out := (Kattis.is_logged_in (session_run net (start cfg) ops)).1 in
  out = Ok false \/ exists e, out = Raise e.
Proof.
  destruct (session_run_extends_gen net ops (start cfg)) as (_ & _ & _ & Ha).
  assert (allocated (session_run net (start cfg) ops)) as Halloc.
  { apply Ha. intros c k resp Hcache. done. }
  destruct (Kattis.is_logged_in _) as [[b|e] p'] eqn:H; simpl; [|eauto].
  apply is_logged_in_never_true in H; [|done]. left. congruence.
Qed.

(** ** What the session operations do to the network and the cache *)

(** The login request built depends on the configuration and on the
    allocator only. *)
Lemma login_request_congr (p q : Kattis.process) :
  Kattis.config (Kattis.session p) = Kattis.config (Kattis.session q) ->
  Kattis.next_id p = Kattis.next_id q ->
  (Kattis.login_request p).1 = (Kattis.login_request q).1.
Proof.
  destruct p as [[cfg c] s n], q as [[cfg' c'] s' n']. simpl.
  intros <- <-.
  unfold Kattis.login_request, Kattis.lift, Kattis.raise, Kattis.Request_new.
  unfold mbind, Kattis.M_bind.
  change (Kattis.password (Kattis.session (Kattis.mk_process (Kattis.mk cfg c') s' n)))
    with (Kattis.password (Kattis.session (Kattis.mk_process (Kattis.mk cfg c) s n))).
  destruct (Kattis.password _) as [pw|]; [|done].
  change (Kattis.token (Kattis.session (Kattis.mk_process (Kattis.mk cfg c') s' n)))
    with (Kattis.token (Kattis.session (Kattis.mk_process (Kattis.mk cfg c) s n))).
  destruct (Kattis.token _) as [tk|]; [|done].
  destruct (bool_decide (pw = None) && bool_decide (tk = None)); [done|].
  cbv beta.
  change (Kattis.username (Kattis.session (Kattis.mk_process (Kattis.mk cfg c') s' n)))
    with (Kattis.username (Kattis.session (Kattis.mk_process (Kattis.mk cfg c) s n))).
  destruct (Kattis.username _) as [user|]; [|done].
  change (Kattis.password (Kattis.session (Kattis.mk_process (Kattis.mk cfg c') s' n)))
    with (Kattis.password (Kattis.session (Kattis.mk_process (Kattis.mk cfg c) s n))).
  destruct (Kattis.password _) as [pw'|]; [|done].
  change (Kattis.token (Kattis.session (Kattis.mk_process (Kattis.mk cfg c') s' n)))
    with (Kattis.token (Kattis.session (Kattis.mk_process (Kattis.mk cfg c) s n))).
  destruct (Kattis.token _) as [tk'|]; [|done].
  change (Kattis.login_url (Kattis.session (Kattis.mk_process (Kattis.mk cfg c') s' n)))
    with (Kattis.login_url (Kattis.session (Kattis.mk_process (Kattis.mk cfg c) s n))).
  by destruct (Kattis.login_url _) as [url|].
Qed.

(** Sending the login request, spelled out: the request is a new object,
    so the send never hits and always goes to the transport. *)
Lemma send_login_request_spec (net : transport) (use_cached : bool)
    (p : Kattis.process) (lreq : Request) (p1 : Kattis.process) :
  allocated p ->
  Kattis.login_request p = (Ok lreq, p1) ->
  Kattis.send_login_request net use_cached p =
  match prepare_error net lreq with
  | Some e =>
      (Raise e,
       Kattis.mk_process
         (Kattis.mk (Kattis.config (Kattis.session p))
            (Some (RequestCache.mk (cache_dict p))))
         (Kattis.sent p) (S (Kattis.next_id p)))
  | None =>
      match net (Kattis.sent p) lreq with
      | Ok resp =>
          (Ok resp,
           Kattis.mk_process
             (Kattis.mk (Kattis.config (Kattis.session p))
                (Some (RequestCache.mk
                         (<[req_id lreq := resp]> (cache_dict p)))))
             (Kattis.sent p ++ [lreq])%list (S (Kattis.next_id p)))
      | Raise e =>
          (Raise e,
           Kattis.mk_process
             (Kattis.mk (Kattis.config (Kattis.session p))
                (Some (RequestCache.mk (cache_dict p))))
             (Kattis.sent p ++ [lreq])%list (S (Kattis.next_id p)))
      end
  end.
Proof.
  intros Halloc Hreq.
  unfold Kattis.send_login_request. rewrite bind_unfold.
  destruct (Kattis.cache p) as [rc p0] eqn:Hc.
  apply cache_extends in Hc as ((Hcfg & _) & Hd & Hn & Hs & c & -> & Hc0).
  rewrite bind_unfold.
  pose proof (login_request_congr p0 p Hcfg Hn) as Hcongr.
  rewrite Hreq in Hcongr. simpl in Hcongr.
  destruct (Kattis.login_request p0) as [r0 p2] eqn:Hreq0.
  simpl in Hcongr. subst r0.
  apply login_request_ok in Hreq0 as (-> & Hid & _).
  rewrite cache_call_send. simpl. rewrite Hc0. simpl.
  assert (RequestCache.cache c = cache_dict p) as Hcd.
  { rewrite <- Hd. unfold cache_dict. by rewrite Hc0. }
  assert (RequestCache.cache c !! dict_key lreq = None) as Hmiss.
  { unfold dict_key. rewrite Hid, Hn, Hcd.
    destruct (cache_dict p !! Kattis.next_id p) eqn:Hk; [|done].
    pose proof (proj1 (allocated_dict p) Halloc _ _ Hk). lia. }
  rewrite send_call by auto. rewrite Hs, Hcfg, Hn.
  destruct (prepare_error net lreq).
  { by destruct c; simpl in *; subst. }
  destruct (net (Kattis.sent p) lreq) as [resp|e].
  - by rewrite Hcd.
  - by destruct c; simpl in *; subst.
Qed.

(** X22. [logout()] removes nothing from the cache and calls nothing: the
    request it invalidates is a new object that has no entry. *)
Theorem logout_removes_nothing (p : Kattis.process) (r : result unit)
    (p' : Kattis.process) :
  allocated p ->
  Kattis.logout p = (r, p') ->
  cache_dict p' = cache_dict p /\ Kattis.sent p' = Kattis.sent p.
Proof.
  intros Halloc. unfold Kattis.logout. rewrite bind_unfold.
  destruct (Kattis.cache p) as [rc p0] eqn:Hc.
  apply cache_extends in Hc as (_ & Hd & Hn & Hs & c & -> & _).
  rewrite bind_unfold.
  destruct (Kattis.login_request p0) as [rr p1] eqn:Hreq.
  pose proof (login_request_extends _ _ _ Hreq) as (_ & Hd1 & Hid).
  apply login_request_state in Hreq as (_ & Hs1 & _).
  destruct rr as [req|e]; [|intros [= <- <-]; split; congruence].
  intros H.
  apply (cache_call_pure (fun _ => ())
           (fun c => RequestCache.invalidate c req)) in H
    as (_ & Hs2 & _ & Hd2 & _).
  2: { intros c0 k resp Hk. simpl in Hk.
       by apply lookup_delete_Some in Hk as [_ Hk]. }
  split; [|congruence].
  rewrite Hd2. simpl. rewrite Hd1, Hd. apply delete_id.
  destruct (Hid req eq_refl) as [Hid0 _].
  unfold dict_key. rewrite Hid0, Hn.
  destruct (cache_dict p !! Kattis.next_id p) eqn:Hk; [|done].
  pose proof (proj1 (allocated_dict p) Halloc _ _ Hk). lia.
Qed.

Lemma logout_removes_nothing_witness :
  let p := session_run (stub 200) (start alice_config) [SLogin true] in
  cache_dict (Kattis.logout p).2 = cache_dict p /\
  Kattis.sent (Kattis.logout p).2 = Kattis.sent p.
Proof.
  intros p.
  apply (logout_removes_nothing p (Kattis.logout p).1).
  - apply (session_run_extends_gen (stub 200) [SLogin true]
             (start alice_config)).
    intros c k resp Hc. done.
  - apply surjective_pairing.
Defined.

(** A login whose response has status 200, spelled out. *)
Lemma login_ok_spec (net : transport) (use_cached : bool)
    (p : Kattis.process) (lreq : Request) (p1 : Kattis.process)
    (lresp : Response) :
  allocated p ->
  Kattis.login_request p = (Ok lreq, p1) ->
  prepare_error net lreq = None ->
  net (Kattis.sent p) lreq = Ok lresp ->
  status_code lresp = 200%Z ->
  Kattis.login net use_cached p =
  (Ok lresp,
   Kattis.mk_process
     (Kattis.mk (Kattis.config (Kattis.session p))
        (Some (RequestCache.mk (<[req_id lreq := lresp]> (cache_dict p)))))
     (Kattis.sent p ++ [lreq])%list (S (Kattis.next_id p))).
Proof.
  intros Halloc Hreq Hprep Hnet Hst. unfold Kattis.login. rewrite bind_unfold.
  rewrite (send_login_request_spec net use_cached p lreq p1 Halloc Hreq).
  rewrite Hprep, Hnet, Hst. reflexivity.
Qed.

(** X23. A [login()] whose request can be built prepares it and, unless
    preparing it raises, makes exactly one network call with it, whatever
    [use_cached] is and whatever the cache holds.  An exception from
    preparing the request or from the transport is raised unchanged and
    leaves the dictionary as it was.  A response is stored under the new
    request, also when its status makes [login()] raise; with status 200
    it is returned. *)
Theorem login_goes_to_transport (net : transport) (use_cached : bool)
    (p : Kattis.process) (lreq : Request) (p1 : Kattis.process) :
  allocated p ->
  Kattis.login_request p = (Ok lreq, p1) ->
  let out := Kattis.login net use_cached p in
  match prepare_error net lreq with
  | Some e =>
      out.1 = Raise e /\ Kattis.sent out.2 = Kattis.sent p /\
      cache_dict out.2 = cache_dict p
  | None =>
      Kattis.sent out.2 = (Kattis.sent p ++ [lreq])%list /\
      match net (Kattis.sent p) lreq with
      | Raise e => out.1 = Raise e /\ cache_dict out.2 = cache_dict p
      | Ok resp =>
          cache_dict out.2 = <[req_id lreq := resp]> (cache_dict p) /\
          (status_code resp = 200%Z -> out.1 = Ok resp) /\
          (status_code resp <> 200%Z -> exists e, out.1 = Raise e)
      end
  end.
Proof.
  intros Halloc Hreq out.
  destruct (Kattis.login net use_cached p) as [r p'] eqn:Hl. subst out.
  pose proof Hl as Hl0.
  apply login_state in Hl as (r1 & Hs & Hok).
  rewrite (send_login_request_spec net use_cached p lreq p1 Halloc Hreq) in Hs.
  unfold Kattis.login in Hl0. rewrite bind_unfold in Hl0.
  rewrite (send_login_request_spec net use_cached p lreq p1 Halloc Hreq)
    in Hl0.
  destruct (prepare_error net lreq) as [e|] eqn:Hprep.
  { injection Hs as <- <-. injection Hl0 as <-. done. }
  destruct (net (Kattis.sent p) lreq) as [resp|e] eqn:Hnet.
  - injection Hs as <- <-. simpl. split; [done|]. split; [done|]. split.
    + intros Hst. rewrite Hst in Hl0. by injection Hl0 as <-.
    + intros Hst. destruct r as [resp'|e]; [|eauto].
      destruct (Hok resp' eq_refl) as [[= <-] H200]. done.
  - injection Hs as <- <-. injection Hl0 as <-. done.
Qed.

Lemma login_goes_to_transport_witness :
  let p := session_run (stub 403) (start alice_config) [SLogin true] in
  length (Kattis.sent p) = 1 /\
  length (Kattis.sent (Kattis.login (stub 403) true p).2) = 2.
Proof.
  intros p. split; [vm_compute; reflexivity|].
  assert (allocated p) as Halloc.
  { apply (session_run_extends_gen (stub 403) [SLogin true]
             (start alice_config)).
    intros c k resp Hc. done. }
  destruct (Kattis.login_request p) as [[lreq|e] p1] eqn:Hreq.
  - rewrite (proj1 (login_goes_to_transport (stub 403) true p lreq p1 Halloc
                      Hreq)).
    rewrite length_app. vm_compute. reflexivity.
  - exfalso. apply (f_equal fst) in Hreq. vm_compute in Hreq. discriminate.
Defined.

(** X24. A [get()] on a session whose login request is prepared and
    answered with status 200 builds a GET request that is a new object
    carrying the given URL, the fixed headers, the given body and query
    parameters (empty when omitted) and the cookies of the login response.
    When preparing that request raises, [get()] raises the same and the
    login was the only network call.  Otherwise there are exactly two
    network calls, the login request and then the GET request, and
    [get()] returns or raises what the transport does for the second. *)
Theorem get_logs_in_then_sends (net : transport) (url : string)
    (data params : option (gmap string string)) (use_cached : bool)
    (p : Kattis.process) (lreq : Request) (p1 : Kattis.process)
    (lresp : Response) :
  allocated p ->
  Kattis.login_request p = (Ok lreq, p1) ->
  prepare_error net lreq = None ->
  net (Kattis.sent p) lreq = Ok lresp ->
  status_code lresp = 200%Z ->
  let req := mk_Request (S (Kattis.next_id p)) "get" url Kattis.HEADERS
               (default ∅ data) (default ∅ params) (Some (cookies_of lresp)) in
  let out := Kattis.get net url data params use_cached p in
  match prepare_error net req with
  | Some e =>
      out.1 = Raise e /\ Kattis.sent out.2 = (Kattis.sent p ++ [lreq])%list
  | None =>
      Kattis.sent out.2 = (Kattis.sent p ++ [lreq; req])%list /\
      out.1 = net (Kattis.sent p ++ [lreq])%list req
  end.
Proof.
  intros Halloc Hreq Hprep Hnet Hst req out. subst out.
  destruct (Kattis.get net url data params use_cached p) as [r p'] eqn:Hg.
  unfold Kattis.get in Hg. rewrite bind_unfold in Hg.
  unfold Kattis.cookies, Kattis.login_response in Hg.
  rewrite bind_unfold in Hg.
  rewrite (login_ok_spec net true p lreq p1 lresp Halloc Hreq Hprep Hnet Hst)
    in Hg.
  cbn [mret Kattis.M_ret] in Hg. rewrite bind_unfold in Hg.
  unfold Kattis.Request_new in Hg.
  cbn [Kattis.next_id Kattis.session Kattis.sent] in Hg.
  fold req in Hg. rewrite bind_unfold in Hg. unfold Kattis.cache at 1 in Hg.
  cbn [Kattis._cache Kattis.session] in Hg.
  rewrite cache_call_send in Hg.
  cbn [Kattis._cache Kattis.session Kattis.sent Kattis.config Kattis.next_id
       default] in Hg.
  apply login_request_ok in Hreq as (_ & Hid & _).
  rewrite send_call in Hg.
  2: { right. simpl. unfold dict_key. simpl. rewrite Hid.
       rewrite lookup_insert_ne by lia.
       destruct (cache_dict p !! S (Kattis.next_id p)) eqn:Hk; [|done].
       pose proof (proj1 (allocated_dict p) Halloc _ _ Hk). lia. }
  destruct (prepare_error net req); [by injection Hg as <- <-|].
  destruct (net (Kattis.sent p ++ [lreq])%list req); injection Hg as <- <-;
    simpl; by rewrite <- app_assoc.
Qed.

Lemma get_logs_in_then_sends_witness :
  let out := Kattis.get needs_scheme "open.kattis.com/problems" None None true
               (start alice_config) in
  out.1 = Raise (mk_exn RequestException ["MissingSchema"]) /\
  length (Kattis.sent out.2) = 1.
Proof.
  set (p := start alice_config).
  assert (allocated p) as Halloc by (intros c k resp Hc; done).
  destruct (Kattis.login_request p) as [[lreq|e] p1] eqn:Hreq.
  - assert (prepare_error needs_scheme lreq = None) as Hprep.
    { apply (f_equal fst) in Hreq. vm_compute in Hreq.
      injection Hreq as <-. reflexivity. }
    pose proof (get_logs_in_then_sends needs_scheme
                  "open.kattis.com/problems" None None true p lreq p1
                  (mk_Response 0 200 ∅) Halloc Hreq Hprep eq_refl eq_refl)
      as H.
    cbv zeta in H. cbn [prepare_error needs_scheme req_url] in H.
    change (String.prefix "http" "open.kattis.com/problems") with false in H.
    cbv iota in H. destruct H as [H1 H2]. cbv zeta. rewrite H1, H2.
    split; [done|]. rewrite length_app. reflexivity.
  - exfalso. apply (f_equal fst) in Hreq. vm_compute in Hreq. discriminate.
Defined.

(** X25. A login request that is built is a POST to the login URL with the
    fixed headers, no query parameters and no cookies.  Its body holds the
    user name and [script = true], the password exactly when one is
    configured and the token exactly when one is configured (at least one
    of the two), and nothing else. *)
Theorem login_request_contents (p : Kattis.process) (req : Request)
    (p' : Kattis.process) :
  Kattis.login_request p = (Ok req, p') ->
  exists user url,
    Kattis.username (Kattis.session p) = Ok user /\
    Kattis.login_url (Kattis.session p) = Ok url /\
    req_method req = "post" /\ req_url req = url /\
    req_headers req = Kattis.HEADERS /\
    req_params req = ∅ /\ req_cookies req = None /\
    req_data req !! "user" = Some user /\
    req_data req !! "script" = Some "true" /\
    Kattis.password (Kattis.session p) = Ok (req_data req !! "password") /\
    Kattis.token (Kattis.session p) = Ok (req_data req !! "token") /\
    (is_Some (req_data req !! "password") \/
     is_Some (req_data req !! "token")) /\
    dom (req_data req) ⊆ {["user"; "script"; "password"; "token"]}.
Proof.
  unfold Kattis.login_request, Kattis.lift, Kattis.raise, Kattis.Request_new.
  unfold mbind, Kattis.M_bind.
  destruct (Kattis.password (Kattis.session p)) as [pw|] eqn:Hpw; [|done].
  destruct (Kattis.token (Kattis.session p)) as [tk|] eqn:Htk; [|done].
  destruct (bool_decide (pw = None) && bool_decide (tk = None)) eqn:Hboth;
    [done|].
  cbv beta. rewrite Hpw, Htk.
  destruct (Kattis.username (Kattis.session p)) as [user|]; [|done].
  destruct (Kattis.login_url (Kattis.session p)) as [url|]; [|done].
  intros [= <- <-]. exists user, url. cbn [req_method req_url req_headers
    req_params req_cookies req_data].
  do 7 (split; [done|]).
  destruct pw as [pw|], tk as [tk|]; try done;
    (split; [vm_compute; reflexivity|]);
    (split; [vm_compute; reflexivity|]);
    (split; [vm_compute; reflexivity|]);
    (split; [vm_compute; reflexivity|]);
    (split; [first [left; vm_compute; eexists; reflexivity
                   |right; vm_compute; eexists; reflexivity]|]);
    rewrite ?dom_insert_L, dom_singleton_L;
    repeat apply union_least; try apply union_subseteq_l;
    set_solver.
Qed.

Lemma login_request_contents_witness :
  exists req p',
    Kattis.login_request (start alice_config) = (Ok req, p') /\
    req_data req !! "password" = Some "secret" /\
    req_data req !! "token" = None.
Proof.
  destruct (Kattis.login_request (start alice_config)) as [[req|e] p'] eqn:H.
  - exists req, p'. split; [done|].
    destruct (login_request_contents _ _ _ H)
      as (user & url & _ & _ & _ & _ & _ & _ & _ & _ & _ & Hpw & Htk & _).
    assert (Kattis.password (Kattis.session (start alice_config)) =
            Ok (Some "secret")) as Hp by (vm_compute; reflexivity).
    assert (Kattis.token (Kattis.session (start alice_config)) = Ok None)
      as Ht by (vm_compute; reflexivity).
    rewrite Hp in Hpw. rewrite Ht in Htk. split; congruence.
  - exfalso. apply (f_equal fst) in H. vm_compute in H. discriminate.
Defined.

(** X26. A [get()] whose login raises raises the same exception and ends in
    the same state: its own request is never built nor sent. *)
Theorem get_needs_login (net : transport) (url : string)
    (data params : option (gmap string string)) (use_cached : bool)
    (p : Kattis.process) (e : exn) (p' : Kattis.process) :
  Kattis.login net true p = (Raise e, p') ->
  Kattis.get net url data params use_cached p = (Raise e, p').
Proof.
  intros H. unfold Kattis.get, Kattis.cookies, Kattis.login_response.
  rewrite !bind_unfold. by rewrite H.
Qed.

Lemma get_needs_login_witness :
  exists p',
    Kattis.get (stub 403) "https://open.kattis.com/problems" None None true
      (start alice_config) =
      (Raise (mk_exn Exception ["403: bad credentials for alice"]), p') /\
    length (Kattis.sent p') = 1.
Proof.
  exists (Kattis.login (stub 403) true (start alice_config)).2.
  split; [|vm_compute; reflexivity].
  apply get_needs_login. apply injective_projections;
    [vm_compute; reflexivity|reflexivity].
Defined.
